(** * newapi.py: the BetsAPI pagination-and-normalization pipeline

    A shallow embedding of [src/newapi.py] (the Streamlit script that pulls
    tennis events from BetsAPI day by day, normalizes them to eight columns
    and keeps them in a buffer), followed by the properties of the pipeline.

    Layout:
    - [Py]: the Python values the script handles (what [json] produces) and
      the builtins it calls on them ([bool], [str], [int], [dict.get], [or],
      iteration, [str.strip]);
    - [Calendar]: [datetime] as far as lines 140-170 and 322-324 use it;
    - [Events]: [_extract_name], [_convert_epoch_to_date_time],
      [normalize_result] (lines 123-230);
    - [Fetch]: the body of [if do_fetch:] (lines 309-404), with the HTTP
      endpoint as an oracle and every request recorded in a trace;
    - [Spec]: the predicates and functions the properties are stated with;
    - [Upload]: the body of [if upl is not None:] (lines 406-427);
    - [Session]: one run of the script, the fetch and then the upload, on
      the buffer of the preview (lines 303-431);
    - [Example]: a runtime, some endpoints and some records for the closed
      examples;
    - [Notions]: more predicates for the further properties;
    - the properties, component by component. *)

From Stdlib Require Import ZArith List String Ascii Bool Lia.
From Stdlib Require Import DecimalString.
From Stdlib Require Import Floats.SpecFloat.
From Equations Require Import Equations.
Import ListNotations.

Set Warnings "-register-all".

#[local] Open Scope string_scope.
#[local] Open Scope Z_scope.

(** ** Exceptions *)

(** The exception classes that the modelled code can raise.  All of them are
    subclasses of [Exception], so every [except Exception] of the script
    catches them. *)
Inductive exn : Type :=
| AttributeError
| TypeError
| ValueError
| OverflowError.

Inductive result (A : Type) : Type :=
| Ok (a : A)
| Raise (e : exn).
Arguments Ok {A} a.
Arguments Raise {A} e.

Definition bind {A B : Type} (m : result A) (k : A -> result B) : result B :=
  match m with
  | Ok a => k a
  | Raise e => Raise e
  end.

Notation "x <- m ;; k" := (bind m (fun x => k))
  (at level 61, m at next level, right associativity).

(** [try: m  except Exception: handler]. *)
Definition try_except {A : Type} (m : result A) (handler : A) : A :=
  match m with
  | Ok a => a
  | Raise _ => handler
  end.

(** ** Python values *)

Module Py.

(** What [json.load] / [r.json()] hand to the script: [None], [bool], [int],
    [float] (an IEEE binary64, as [spec_float]), [str] (its UTF-8 bytes),
    [list] and [dict].  A [dict] keeps its entries in insertion order; the
    parser leaves one entry per key, and a lookup takes the first match. *)
Inductive value : Type :=
| VNone
| VBool (b : bool)
| VInt (z : Z)
| VFloat (f : spec_float)
| VStr (s : string)
| VList (l : list value)
| VDict (d : list (string * value)).

Definition is_dict (v : value) : bool :=
  match v with VDict _ => true | _ => false end.

Definition is_str (v : value) : bool :=
  match v with VStr _ => true | _ => false end.

(** What the interpreter and its libraries supply and the source only calls:
    - [float_repr]: [repr] of a float (shortest round-trip digits);
    - [str_repr]: [repr] of a str (quotes and escapes);
    - [int_of_str]: [int(s)] for a str, [None] standing for [ValueError];
    - [ZoneInfo]: the [zoneinfo.ZoneInfo] class of lines 20-23, [None] when
      the import failed; applied to a key it gives the zone, as the UTC
      offset in seconds in force at a UTC instant, or [None] when the
      constructor raises (unknown or malformed key);
    - [strftime_short_year]: what [strftime] prints under [%Y] for a year
      below 1000, which the C library decides: glibc prints the number as
      it is ([1], [999]), others pad it with zeros to four digits. *)
Class Runtime : Type := {
  float_repr : spec_float -> string;
  str_repr : string -> string;
  int_of_str : string -> option Z;
  ZoneInfo : option (string -> option (Z -> Z));
  strftime_short_year : Z -> string;
}.

(** *** Decimal rendering of [int] *)

Definition dec (z : Z) : string := NilZero.string_of_int (Z.to_int z).

(** *** Truth value testing, [bool(v)] *)

Definition float_is_zero (f : spec_float) : bool :=
  match f with S754_zero _ => true | _ => false end.

Definition truthy (v : value) : bool :=
  match v with
  | VNone => false
  | VBool b => b
  | VInt z => negb (z =? 0)
  | VFloat f => negb (float_is_zero f)
  | VStr s => negb (s =? "")%string
  | VList l => match l with [] => false | _ => true end
  | VDict d => match d with [] => false | _ => true end
  end.

(** [a or b] (the right operand of every [or] in the script is a [dict.get]
    on an object already known to be a dict, or a literal: it cannot raise,
    so evaluating it eagerly changes nothing). *)
Definition py_or (a b : value) : value := if truthy a then a else b.

(** *** [dict.get] *)

Fixpoint dict_get (d : list (string * value)) (k : string) : option value :=
  match d with
  | [] => None
  | (k', v) :: rest => if (k' =? k)%string then Some v else dict_get rest k
  end.

(** [d.get(k)], with [None] for a missing key. *)
Definition get (d : list (string * value)) (k : string) : value :=
  match dict_get d k with Some v => v | None => VNone end.

(** [d.get(k, default)]. *)
Definition get_default (d : list (string * value)) (k : string) (default : value) : value :=
  match dict_get d k with Some v => v | None => default end.

(** *** [str(v)] and [repr(v)] *)

Definition join (sep : string) (l : list string) : string := String.concat sep l.

Section WithRuntime.
Context {rt : Runtime}.

Fixpoint py_repr (v : value) : string :=
  match v with
  | VNone => "None"
  | VBool true => "True"
  | VBool false => "False"
  | VInt z => dec z
  | VFloat f => float_repr f
  | VStr s => str_repr s
  | VList l => "[" ++ join ", " (map py_repr l) ++ "]"
  | VDict d =>
      "{" ++ join ", " (map (fun '(k, x) => str_repr k ++ ": " ++ py_repr x) d) ++ "}"
  end.

Definition py_str (v : value) : string :=
  match v with
  | VStr s => s
  | _ => py_repr v
  end.

(** *** [int(v)] *)

(** Truncation of a float toward zero; infinities raise [OverflowError] and
    NaN raises [ValueError]. *)
Definition float_to_int (f : spec_float) : result Z :=
  match f with
  | S754_zero _ => Ok 0
  | S754_infinity _ => Raise OverflowError
  | S754_nan => Raise ValueError
  | S754_finite s m e =>
      let mag := if 0 <=? e then Z.pos m * 2 ^ e else Z.pos m / 2 ^ (- e) in
      Ok (if s then - mag else mag)
  end.

Definition py_int (v : value) : result Z :=
  match v with
  | VNone => Raise TypeError
  | VBool b => Ok (if b then 1 else 0)
  | VInt z => Ok z
  | VFloat f => float_to_int f
  | VStr s => match int_of_str s with Some z => Ok z | None => Raise ValueError end
  | VList _ => Raise TypeError
  | VDict _ => Raise TypeError
  end.

End WithRuntime.

(** *** [v != n] for an int literal [n] *)

(** A float equals the int [n] when its exact value is [n]. *)
Definition float_eqb_int (f : spec_float) (n : Z) : bool :=
  match f with
  | S754_zero _ => n =? 0
  | S754_infinity _ => false
  | S754_nan => false
  | S754_finite s m e =>
      let sgn (x : Z) := if s then - x else x in
      if 0 <=? e then sgn (Z.pos m * 2 ^ e) =? n
      else (Z.pos m mod 2 ^ (- e) =? 0) && (sgn (Z.pos m / 2 ^ (- e)) =? n)
  end.

Definition py_ne_int (v : value) (n : Z) : bool :=
  match v with
  | VBool b => negb ((if b then 1 else 0) =? n)
  | VInt z => negb (z =? n)
  | VFloat f => negb (float_eqb_int f n)
  | _ => true
  end.

(** *** Code points and [str.strip()] *)

Definition byte (a : ascii) : N := N_of_ascii a.

(** A UTF-8 continuation byte, 10xxxxxx. *)
Definition is_continuation (a : ascii) : bool :=
  ((128 <=? byte a) && (byte a <? 192))%N.

Definition continues (s : string) : bool :=
  match s with
  | String b _ => is_continuation b
  | EmptyString => false
  end.

(** The characters of a str, each as the str of its UTF-8 bytes. *)
Fixpoint code_points (s : string) : list string :=
  match s with
  | EmptyString => []
  | String a rest =>
      match code_points rest with
      | g :: gs =>
          if continues rest then String a g :: gs else String a "" :: g :: gs
      | [] => [String a ""]
      end
  end.

(** [c.isspace()] for one character: U+0009..000D, U+001C..0020, U+0085,
    U+00A0, U+1680, U+2000..200A, U+2028, U+2029, U+202F, U+205F, U+3000. *)
Definition isspace (c : string) : bool :=
  match map byte (list_ascii_of_string c) with
  | [n] => (((9 <=? n) && (n <=? 13)) || ((28 <=? n) && (n <=? 32)))%N
  | [194; n] => ((n =? 133) || (n =? 160))%N
  | [225; 154; 128] => true
  | [226; 128; n] =>
      (((128 <=? n) && (n <=? 138)) || (n =? 168) || (n =? 169) || (n =? 175))%N
  | [226; 129; 159] => true
  | [227; 128; 128] => true
  | _ => false
  end%N.

Fixpoint dropwhile {A : Type} (p : A -> bool) (l : list A) : list A :=
  match l with
  | [] => []
  | x :: rest => if p x then dropwhile p rest else l
  end.

Definition strip (s : string) : string :=
  String.concat ""
    (rev (dropwhile isspace (rev (dropwhile isspace (code_points s))))).

(** *** Iteration *)

(** [iter(v)]: a list yields its items, a dict its keys, a str its
    characters; the other values are not iterable. *)
Definition py_iter (v : value) : result (list value) :=
  match v with
  | VList l => Ok l
  | VDict d => Ok (map (fun kv => VStr (fst kv)) d)
  | VStr s => Ok (map VStr (code_points s))
  | _ => Raise TypeError
  end.

End Py.

(** ** The calendar *)

Module Calendar.

(** Proleptic Gregorian date [(year, month, day)] of a day number counted
    from 1970-01-01, the calendar of [datetime]. *)
Definition civil_from_days (days : Z) : Z * Z * Z :=
  let z := days + 719468 in
  let era := z / 146097 in
  let doe := z - era * 146097 in
  let yoe := (doe - doe / 1460 + doe / 36524 - doe / 146096) / 365 in
  let doy := doe - (365 * yoe + yoe / 4 - yoe / 100) in
  let mp := (5 * doy + 2) / 153 in
  let d := doy - (153 * mp + 2) / 5 + 1 in
  let m := if mp <? 10 then mp + 3 else mp - 9 in
  let y := yoe + era * 400 + (if m <=? 2 then 1 else 0) in
  (y, m, d).

(** A [tzinfo]: the UTC offset, in seconds, in force at a UTC instant. *)
Definition tzinfo : Type := Z -> Z.

(** [dt.timezone.utc]. *)
Definition utc : tzinfo := fun _ => 0.

(** A [datetime]: its wall-clock reading, in seconds counted from
    1970-01-01T00:00:00 on that wall clock, and its UTC offset. *)
Record datetime : Type := {
  wall : Z;
  utcoffset : Z;
}.

(** [datetime.min] is 0001-01-01T00:00:00 and [datetime.max] is
    9999-12-31T23:59:59. *)
Definition MIN_WALL : Z := -62135596800.
Definition MAX_WALL : Z := 253402300799.

Definition in_range (w : Z) : bool := (MIN_WALL <=? w) && (w <=? MAX_WALL).

(** [dt.datetime.fromtimestamp(ts, tz=dt.timezone.utc)] on a POSIX platform;
    outside the years 1..9999 it raises ([OverflowError], [ValueError] or
    [OSError] by magnitude, caught alike by the script). *)
Definition fromtimestamp_utc (ts : Z) : result datetime :=
  if in_range ts then Ok {| wall := ts; utcoffset := 0 |}
  else Raise OverflowError.

(** [dt.datetime.utcfromtimestamp(ts)]. *)
Definition utcfromtimestamp (ts : Z) : result datetime := fromtimestamp_utc ts.

(** [d.astimezone(tz)]: the same instant on the wall clock of [tz]; it
    raises [OverflowError] when that reading leaves the years 1..9999. *)
Definition astimezone (d : datetime) (tz : tzinfo) : result datetime :=
  let instant := wall d - utcoffset d in
  let off := tz instant in
  if in_range (instant + off) then Ok {| wall := instant + off; utcoffset := off |}
  else Raise OverflowError.

Definition pad2 (n : Z) : string :=
  if n <? 10 then "0" ++ Py.dec n else Py.dec n.

Section WithRuntime.
Context {rt : Py.Runtime}.

(** The year under [%Y]: its decimal digits from 1000 on, where all
    platforms agree; below, what the platform's C library prints. *)
Definition year_text (y : Z) : string :=
  if y <? 1000 then Py.strftime_short_year y else Py.dec y.

(** One [strftime] directive, of those the script uses. *)
Definition directive (c : ascii) (w : Z) : string :=
  let '(y, m, d) := civil_from_days (w / 86400) in
  let s := w mod 86400 in
  match c with
  | "Y"%char => year_text y
  | "m"%char => pad2 m
  | "d"%char => pad2 d
  | "H"%char => pad2 (s / 3600)
  | "M"%char => pad2 (s mod 3600 / 60)
  | "S"%char => pad2 (s mod 60)
  | _ => String "%" (String c "")
  end.

(** [strftime] on a wall-clock reading. *)
Fixpoint strftime_wall (fmt : string) (w : Z) : string :=
  match fmt with
  | EmptyString => ""
  | String "%" (String c rest) => directive c w ++ strftime_wall rest w
  | String a rest => String a (strftime_wall rest w)
  end.

(** [d.strftime(fmt)] for a [datetime]. *)
Definition strftime (d : datetime) (fmt : string) : string :=
  strftime_wall fmt (wall d).

End WithRuntime.

(** Day number, counted from 1970-01-01, of a proleptic Gregorian date. *)
Definition days_from_civil (y m d : Z) : Z :=
  let y := if m <=? 2 then y - 1 else y in
  let era := y / 400 in
  let yoe := y - era * 400 in
  let doy := (153 * (if 2 <? m then m - 3 else m + 9) + 2) / 5 + d - 1 in
  let doe := yoe * 365 + yoe / 4 - yoe / 100 + doy in
  era * 146097 + doe - 719468.

(** A [dt.date], as its day number counted from 1970-01-01.  The dates of
    the form are valid dates, and every day the script builds lies between
    two of them. *)
Definition date : Type := Z.

(** [dt.date(y, m, d)]. *)
Definition ymd (y m d : Z) : date := days_from_civil y m d.

(** [d.strftime(fmt)] for a [date]: the clock fields read zero. *)
Definition date_strftime {rt : Py.Runtime} (d : date) (fmt : string) : string :=
  strftime_wall fmt (d * 86400).

End Calendar.

(** ** Normalization (lines 117-230) *)

Module Events.
Import Py Calendar.

Notation "a 'orelse' b" := (py_or a b) (at level 60, right associativity).

(** The dict appended to [rows] at lines 219-228, one field per key.  Five
    of the values are results of [str(...)], of [strftime] or the literal
    [""]; the other three are whatever the name lookups returned. *)
Record row : Type := {
  event_key : string;
  event_date : string;
  event_time : string;
  first_player : value;
  second_player : value;
  tournament_name : value;
  event_type_type : string;
  event_status : string;
}.

(** The row as the DataFrame holds it: column name and cell, in the order
    of the dict literal. *)
Definition cells (r : row) : list (string * value) :=
  [ ("event_key", VStr (event_key r));
    ("event_date", VStr (event_date r));
    ("event_time", VStr (event_time r));
    ("first_player", first_player r);
    ("second_player", second_player r);
    ("tournament_name", tournament_name r);
    ("event_type_type", VStr (event_type_type r));
    ("event_status", VStr (event_status r)) ].

(** A [pd.DataFrame] built from a list of such dicts: its rows, in order. *)
Definition DataFrame : Type := list row.

(** [df.columns]: a frame built from no dict has no column. *)
Definition columns (df : DataFrame) : list string :=
  match df with
  | [] => []
  | r :: _ => map fst (cells r)
  end.

(** [df.empty]. *)
Definition empty (df : DataFrame) : bool :=
  match df with [] => true | _ => false end.

Section WithRuntime.
Context {rt : Runtime}.

(** Lines 123-138. *)
Definition _extract_name (side : value) : value :=
  match side with
  | VNone => VStr ""
  | VDict d =>
      get d "name"
      orelse get d "name_en"
      orelse get d "name_full"
      orelse get d "name_short"
      orelse VStr ""
  | _ => VStr (py_str side)
  end.

(** The zone chosen at lines 153-159. *)
Definition resolve_tz (tz_name : string) : tzinfo :=
  match ZoneInfo with
  | Some zone_info =>
      if negb (tz_name =? "")%string then
        match zone_info tz_name with
        | Some tz => tz
        | None => utc
        end
      else utc
  | None => utc
  end.

(** Lines 140-170. *)
Definition _convert_epoch_to_date_time (epoch_value : value) (tz_name : string)
  : string * string :=
  if negb (truthy epoch_value) then ("", "")
  else
    match py_int epoch_value with
    | Raise _ => ("", "")
    | Ok ts =>
        try_except
          (let tz := resolve_tz tz_name in
           dt_utc <- fromtimestamp_utc ts ;;
           dt_local <- astimezone dt_utc tz ;;
           Ok (strftime dt_local "%Y-%m-%d", strftime dt_local "%H:%M:%S"))
          (try_except
             (d <- utcfromtimestamp ts ;;
              Ok (strftime d "%Y-%m-%d", strftime d "%H:%M:%S"))
             ("", ""))
    end.

(** The body of the [for] loop of lines 178-228, for one item.  Every use
    of [it] is an [it.get(...)], and only a dict has that method: on any
    other value the first one, at line 181, raises [AttributeError]. *)
Definition normalize_item (it : value) (tz_name : string) : result row :=
  match it with
  | VDict d =>
      let event_id :=
        get d "id"
        orelse get d "event_id"
        orelse get d "FI"
        orelse get d "match_id"
        orelse get d "event_key" in
      let event_key :=
        match event_id with VNone => "" | _ => py_str event_id end in
      let time_epoch := get d "time" orelse get d "start_time" orelse get d "kickoff" in
      let '(event_date, event_time) := _convert_epoch_to_date_time time_epoch tz_name in
      let league := get d "league" orelse VDict [] in
      let tournament_name :=
        match league with
        | VDict l => get l "name" orelse get l "name_en" orelse get l "cc" orelse VStr ""
        | VNone => VStr ""
        | _ => VStr (py_str league)
        end in
      let home := get d "home" orelse get d "home_team" orelse get d "home_player" in
      let away := get d "away" orelse get d "away_team" orelse get d "away_player" in
      let first_player := _extract_name home in
      let second_player := _extract_name away in
      let event_type_type := py_str (get d "sport_id" orelse VStr "") in
      let event_status := py_str (get d "time_status" orelse get d "status" orelse VStr "") in
      Ok {| event_key := event_key;
            event_date := event_date;
            event_time := event_time;
            first_player := first_player;
            second_player := second_player;
            tournament_name := tournament_name;
            event_type_type := event_type_type;
            event_status := event_status |}
  | _ => Raise AttributeError
  end.

(** The [for] loop itself: the rows in input order, or the first exception. *)
Fixpoint normalize_items (items : list value) (tz_name : string) : result (list row) :=
  match items with
  | [] => Ok []
  | it :: rest =>
      r <- normalize_item it tz_name ;;
      rs <- normalize_items rest tz_name ;;
      Ok (r :: rs)
  end.

(** Lines 172-230: [for it in (result_list or [])]. *)
Definition normalize_result (result_list : value) (tz_name : string) : result DataFrame :=
  items <- py_iter (result_list orelse VList []) ;;
  normalize_items items tz_name.

End WithRuntime.

(** [df.drop_duplicates(subset=["event_key"])]: a row is kept unless an
    earlier row has the same [event_key]; the kept rows stay in order. *)
Fixpoint drop_seen (seen : list string) (df : DataFrame) : DataFrame :=
  match df with
  | [] => []
  | r :: rest =>
      if existsb (String.eqb (event_key r)) seen then drop_seen seen rest
      else r :: drop_seen (event_key r :: seen) rest
  end.

Definition drop_duplicates (df : DataFrame) : DataFrame := drop_seen [] df.

End Events.

(** ** Fetching a range of days (lines 232-252 and 309-404) *)

Module Fetch.
Import Py Calendar Events.

Definition BETSAPI_BASE_URL : string := "https://api.b365api.com".
Definition MAX_PAGES_PER_DAY : Z := 20.

(** One [requests.get] of [fetch_api_day]: the URL and the query. *)
Record call : Type := {
  url : string;
  token : string;
  sport_id : Z;
  day : string;
  page : Z;
}.

(** What [fetch_api_day] does with it: it raises (a transport error, an
    HTTP status caught by [raise_for_status], a body that is not JSON), the
    exception printing as [e]; or it returns the decoded body. *)
Inductive response : Type :=
| Failure (e : string)
| Payload (payload : value).

(** The requests made so far with their outcomes, oldest first. *)
Definition trace : Type := list (call * response).

Definition inspect {A : Type} (a : A) : {b : A | a = b} := exist _ a eq_refl.

(** [range(n)]. *)
Definition range (n : Z) : list Z := map Z.of_nat (seq 0 (Z.to_nat n)).

(** How an iteration of the [while True] of line 329 ends: at a [break] or
    with the exception it lets through, or back at the top of the loop. *)
Inductive step : Type :=
| Break (out : result (list value * list string))
| Continue (page : Z) (acumulados_dia : list value).

(** How [if do_fetch:] ends. *)
Inductive outcome : Type :=
| TokenMissing                                        (* line 311 *)
| InvalidRange                                        (* line 313 *)
| NoMatches (errores : list string)                   (* lines 381-383 *)
| Fetched (df_buf : DataFrame) (errores : list string) (* lines 385-401 *)
| GeneralError (e : exn).                             (* line 404 *)

(** The request of lines 239-250. *)
Definition request (token day_str : string) (sport_id : Z) (scope : string)
    (page : Z) : call :=
  let endpoint :=
    if (scope =? "upcoming")%string then "/v3/events/upcoming" else "/v3/events/ended" in
  {| url := BETSAPI_BASE_URL ++ endpoint;
     token := token;
     sport_id := sport_id;
     day := day_str;
     page := page |}.

(** Lines 350-353: the list under [results], or under [result] when there
    is no [results]. *)
Definition results_of (payload : list (string * value)) : value :=
  match get payload "results" with
  | VNone => get payload "result"
  | results => results
  end.

Section Script.
Context {rt : Runtime}.

(** The remote endpoint: its answer to a request, given all that was asked
    and answered before. *)
Variable upstream : trace -> call -> response.

(** The widgets of the sidebar (lines 257-283). *)
Variable betsapi_token : string.
Variable sport_id_input : Z.
Variable scope_key : string.
Variable fecha_desde fecha_hasta : date.
Variable timezone : string.

(** Lines 232-252: the request is sent, recorded with its answer, and the
    answer returned (or raised, when it is a [Failure]). *)
Definition fetch_api_day (token day_str : string) (sport_id : Z) (scope : string)
    (page : Z) (tr : trace) : response * trace :=
  let c := request token day_str sport_id scope page in
  let r := upstream tr c in
  (r, (tr ++ [(c, r)])%list).

(** The entries of [errores] (lines 339, 345 and 366). *)
Definition error_http (dia_str_display : string) (page : Z) (e : string) : string :=
  dia_str_display ++ " (página " ++ dec page ++ "): error HTTP " ++ e.

Definition error_success (dia_str_display : string) (page : Z) (detail : value) : string :=
  dia_str_display ++ " (página " ++ dec page ++ "): success != 1 (" ++ py_str detail ++ ")".

Definition error_ceiling (dia_str_display : string) : string :=
  dia_str_display ++ ": se alcanzó MAX_PAGES_PER_DAY=" ++ dec MAX_PAGES_PER_DAY
    ++ ", podrían faltar eventos.".

(** Lines 338-368, once [fetch_api_day] has answered [r].  [payload.get]
    exists only on a dict, and [extend] needs an iterable. *)
Definition page_body (dia_str_display : string) (page : Z)
    (acumulados_dia : list value) (errores : list string) (r : response) : step :=
  match r with
  | Failure e =>
      Break (Ok (acumulados_dia, (errores ++ [error_http dia_str_display page e])%list))
  | Payload (VDict p) =>
      let success := get p "success" in
      if py_ne_int success 1 then
        Break (Ok (acumulados_dia,
                   (errores ++ [error_success dia_str_display page
                                  (get_default p "error" (VDict p))])%list))
      else
        let results := results_of p in
        if negb (truthy results) then Break (Ok (acumulados_dia, errores))
        else
          match py_iter results with
          | Raise e => Break (Raise e)
          | Ok items =>
              let acumulados_dia := (acumulados_dia ++ items)%list in
              let page := page + 1 in
              if page >? MAX_PAGES_PER_DAY then
                Break (Ok (acumulados_dia, (errores ++ [error_ceiling dia_str_display])%list))
              else Continue page acumulados_dia
          end
  | Payload _ => Break (Raise AttributeError)
  end.

(** One iteration of the [while True]: the request, then the rest. *)
Definition iteration (day_param dia_str_display : string) (page : Z)
    (acumulados_dia : list value) (errores : list string) (tr : trace) : step * trace :=
  let '(r, tr) :=
    fetch_api_day (strip betsapi_token) day_param sport_id_input scope_key page tr in
  (page_body dia_str_display page acumulados_dia errores r, tr).

(** The rounds that can still start once [page] is reached. *)
Definition pages_left (page : Z) : nat := Z.to_nat (MAX_PAGES_PER_DAY + 1 - page).
Arguments pages_left : simpl never.

(** The [while True] of lines 329-368.  It ends because [page] goes up by
    one each round and the round that takes it past [MAX_PAGES_PER_DAY]
    breaks. *)
Equations? page_loop (day_param dia_str_display : string) (page : Z)
    (acumulados_dia : list value) (errores : list string) (tr : trace)
  : result (list value * list string) * trace
  by wf (pages_left page) lt :=
  page_loop day_param dia_str_display page acumulados_dia errores tr
    with inspect (iteration day_param dia_str_display page acumulados_dia errores tr) => {
    | exist _ (Break out, tr') _ := (out, tr');
    | exist _ (Continue page' acumulados_dia', tr') H :=
        page_loop day_param dia_str_display page' acumulados_dia' errores tr' }.
Proof.
  match goal with
  | Hb : page_body _ _ _ _ ?r = Continue _ _ |- _ =>
      unfold page_body in Hb;
      destruct r as [e | [ | | | | | | p]]; try discriminate;
      destruct (py_ne_int _ _); try discriminate;
      destruct (negb _); try discriminate;
      destruct (py_iter _); try discriminate;
      destruct (_ >? MAX_PAGES_PER_DAY) eqn:E; try discriminate;
      inversion Hb; subst; unfold pages_left; lia
  end.
Qed.

(** The body of the [for i in range(total_dias)] of lines 321-378 (the
    progress bar apart). *)
Definition day_body (i : Z) (dfs : list DataFrame) (errores : list string) (tr : trace)
  : result (list DataFrame * list string) * trace :=
  let dia := fecha_desde + i in
  let dia_str_display := date_strftime dia "%Y-%m-%d" in
  let day_param := date_strftime dia "%Y%m%d" in
  match page_loop day_param dia_str_display 1 [] errores tr with
  | (Raise e, tr) => (Raise e, tr)
  | (Ok (acumulados_dia, errores), tr) =>
      match acumulados_dia with
      | [] => (Ok (dfs, errores), tr)
      | _ :: _ =>
          match normalize_result (VList acumulados_dia) (strip timezone) with
          | Raise e => (Raise e, tr)
          | Ok df_dia =>
              (Ok (if negb (empty df_dia) then (dfs ++ [df_dia])%list else dfs, errores), tr)
          end
      end
  end.

Fixpoint day_loop (days : list Z) (dfs : list DataFrame) (errores : list string)
    (tr : trace) : result (list DataFrame * list string) * trace :=
  match days with
  | [] => (Ok (dfs, errores), tr)
  | i :: rest =>
      match day_body i dfs errores tr with
      | (Raise e, tr) => (Raise e, tr)
      | (Ok (dfs, errores), tr) => day_loop rest dfs errores tr
      end
  end.

(** Lines 309-404: what pressing the fetch button does, from the trace of
    the requests made before to the outcome and the trace after. *)
Definition do_fetch (tr : trace) : outcome * trace :=
  if (strip betsapi_token =? "")%string then (TokenMissing, tr)
  else if fecha_hasta <? fecha_desde then (InvalidRange, tr)
  else
    let total_dias := fecha_hasta - fecha_desde + 1 in
    match day_loop (range total_dias) [] [] tr with
    | (Raise e, tr) => (GeneralError e, tr)
    | (Ok (dfs, errores), tr) =>
        match dfs with
        | [] => (NoMatches errores, tr)
        | _ :: _ =>
            let df_all := List.concat dfs in
            let df_all :=
              if existsb (String.eqb "event_key") (columns df_all)
              then drop_duplicates df_all else df_all in
            (Fetched df_all errores, tr)
        end
    end.

End Script.
End Fetch.

(** ** The vocabulary of the properties *)

Module Spec.
Import Py Calendar Events Fetch.

(** *** Rows *)

(** The name fields of a side, in the order lines 132-135 try them. *)
Definition side_keys : list string := ["name"; "name_en"; "name_full"; "name_short"].

(** The candidate keys of lines 181-217, in the order the code tries them. *)
Definition id_keys : list string := ["id"; "event_id"; "FI"; "match_id"; "event_key"].
Definition time_keys : list string := ["time"; "start_time"; "kickoff"].
Definition league_keys : list string := ["name"; "name_en"; "cc"].
Definition home_keys : list string := ["home"; "home_team"; "home_player"].
Definition away_keys : list string := ["away"; "away_team"; "away_player"].
Definition status_keys : list string := ["time_status"; "status"].

(** The eight columns. *)
Definition column_names : list string :=
  ["event_key"; "event_date"; "event_time"; "first_player"; "second_player";
   "tournament_name"; "event_type_type"; "event_status"].

(** The columns filled with the result of [str], of [strftime] or with
    the literal [""]. *)
Definition text_columns : list string :=
  ["event_key"; "event_date"; "event_time"; "event_type_type"; "event_status"].

(** None of [keys] is a key of the object. *)
Definition absent (d : list (string * value)) (keys : list string) : Prop :=
  forall k, In k keys -> dict_get d k = None.

(** In an object, every name field among [keys] holds a string or a falsy
    value; a value that is no object has no name field. *)
Definition text_names (keys : list string) (v : value) : bool :=
  match v with
  | VDict d => forallb (fun k => is_str (get d k) || negb (truthy (get d k))) keys
  | _ => true
  end.

(** The sides and the league of a record have text names. *)
Definition text_record (d : list (string * value)) : bool :=
  forallb (fun k => text_names side_keys (get d k)) (home_keys ++ away_keys)
  && text_names league_keys (get d "league").

(** The row carries the key [k]. *)
Definition has_key (k : string) (r : row) : bool := (event_key r =? k)%string.

Section WithRuntime.
Context {rt : Runtime}.

(** The key opens no zone: the [zoneinfo] import failed, the key is empty
    or the database does not know it. *)
Definition no_zone (tz_name : string) : Prop :=
  forall zone_info, ZoneInfo = Some zone_info ->
    tz_name <> "" -> zone_info tz_name = None.

(** The row of an object, field by field, each chain of [or] written as a
    fold over its candidate keys. *)
Definition row_of (d : list (string * value)) (tz_name : string) : row :=
  let event_id := fold_right py_or (get d "event_key")
                    (map (get d) ["id"; "event_id"; "FI"; "match_id"]) in
  let date_time :=
    _convert_epoch_to_date_time
      (fold_right py_or (get d "kickoff") (map (get d) ["time"; "start_time"])) tz_name in
  let league := get d "league" orelse VDict [] in
  {| event_key := match event_id with VNone => "" | _ => py_str event_id end;
     event_date := fst date_time;
     event_time := snd date_time;
     first_player :=
       _extract_name (fold_right py_or (get d "home_player")
                        (map (get d) ["home"; "home_team"]));
     second_player :=
       _extract_name (fold_right py_or (get d "away_player")
                        (map (get d) ["away"; "away_team"]));
     tournament_name :=
       match league with
       | VDict l => fold_right py_or (VStr "") (map (get l) league_keys)
       | VNone => VStr ""
       | _ => VStr (py_str league)
       end;
     event_type_type := py_str (get d "sport_id" orelse VStr "");
     event_status := py_str (fold_right py_or (VStr "") (map (get d) status_keys)) |}.

(** The rows of the objects among some records, in order. *)
Definition rows_of (records : list value) (tz_name : string) : DataFrame :=
  flat_map (fun it => match it with VDict d => [row_of d tz_name] | _ => [] end) records.

End WithRuntime.

(** *** Answers *)

(** The records an answer adds to its day: the items under its results
    when its success flag is 1, none otherwise. *)
Definition records_of (r : response) : list value :=
  match r with
  | Payload (VDict p) =>
      if py_ne_int (get p "success") 1 then []
      else match py_iter (results_of p) with Ok items => items | Raise _ => [] end
  | _ => []
  end.

(** The answer is followed by the request for the next page. *)
Definition more_pages (page : Z) (r : response) : bool :=
  match r with
  | Payload (VDict p) =>
      negb (py_ne_int (get p "success") 1) && truthy (results_of p)
      && (page + 1 <=? MAX_PAGES_PER_DAY)
  | _ => false
  end.

(** Answers the loop of a day goes through without an exception: a failed
    request, or an object whose results, when its success flag is 1, are
    falsy or can be iterated. *)
Definition pageable (r : response) : bool :=
  match r with
  | Failure _ => true
  | Payload (VDict p) =>
      py_ne_int (get p "success") 1
      || negb (truthy (results_of p))
      || match py_iter (results_of p) with Ok _ => true | Raise _ => false end
  | Payload _ => false
  end.

(** Answers the whole range goes through without an exception: the records
    they add are objects. *)
Definition well_shaped (r : response) : bool :=
  pageable r && forallb is_dict (records_of r).

(** A page with results: the success flag is 1 and the results are a list
    that is not empty. *)
Definition full_page (r : response) : bool :=
  match r with
  | Payload (VDict p) =>
      negb (py_ne_int (get p "success") 1)
      && match results_of p with VList (_ :: _) => true | _ => false end
  | _ => false
  end.

(** *** Runs of requests *)

(** [n] page numbers in a row, from [page] on. *)
Definition pages_from (page : Z) (n : nat) : list Z :=
  map (fun k => page + Z.of_nat k) (seq 0 n).

(** Requests sent one after the other from the trace [tr], each answered
    by the endpoint on the trace so far. *)
Inductive answered (upstream : trace -> call -> response)
  : trace -> list (call * response) -> Prop :=
| answered_nil (tr : trace) : answered upstream tr []
| answered_cons (tr : trace) (c : call) (seg : list (call * response)) :
    answered upstream (tr ++ [(c, upstream tr c)])%list seg ->
    answered upstream tr ((c, upstream tr c) :: seg).

(** The requests of one day, from [page] on: they ask for the pages in a
    row, there is at least one, and no more than the ceiling allows. *)
Definition day_requests (betsapi_token : string) (sport_id_input : Z)
    (scope_key day_param : string) (page : Z) (seg : list (call * response)) : Prop :=
  map fst seg =
    map (request (strip betsapi_token) day_param sport_id_input scope_key)
        (pages_from page (List.length seg))
  /\ (1 <= List.length seg)%nat
  /\ (page <= MAX_PAGES_PER_DAY ->
      Z.of_nat (List.length seg) <= MAX_PAGES_PER_DAY + 1 - page).

(** The records of a run of requests. *)
Definition records_in (seg : list (call * response)) : list value :=
  flat_map (fun ev => records_of (snd ev)) seg.

(** The two renderings of day [i] of the range (lines 322-324). *)
Definition dia_str_display {rt : Runtime} (fecha_desde : date) (i : Z) : string :=
  date_strftime (fecha_desde + i) "%Y-%m-%d".
Definition day_param {rt : Runtime} (fecha_desde : date) (i : Z) : string :=
  date_strftime (fecha_desde + i) "%Y%m%d".

(** One run of requests per day: each starts at page 1. *)
Definition range_requests {rt : Runtime} (betsapi_token : string) (sport_id_input : Z)
    (scope_key : string) (fecha_desde : date)
    (days : list Z) (segs : list (list (call * response))) : Prop :=
  Forall2 (fun i seg => day_requests betsapi_token sport_id_input scope_key
                          (day_param fecha_desde i) 1 seg) days segs.

Section WithRuntime.
Context {rt : Runtime}.

(** The entries the answer to the request for [page] adds to [errores]:
    one for a failed request, one for a success flag other than 1, one for
    results on the last page allowed, none otherwise. *)
Definition entries_of (dia_str_display : string) (page : Z) (r : response) : list string :=
  match r with
  | Failure e => [error_http dia_str_display page e]
  | Payload (VDict p) =>
      if py_ne_int (get p "success") 1 then
        [error_success dia_str_display page (get_default p "error" (VDict p))]
      else if truthy (results_of p) && (page + 1 >? MAX_PAGES_PER_DAY) then
        [error_ceiling dia_str_display]
      else []
  | Payload _ => []
  end.

(** The error entries of a run of requests. *)
Definition entries_in (dia_str_display : string) (seg : list (call * response))
  : list string :=
  flat_map (fun ev => entries_of dia_str_display (page (fst ev)) (snd ev)) seg.

(** The frame a day adds to [dfs]: none when the day brought no record. *)
Definition frame_of (seg : list (call * response)) (tz_name : string) : list DataFrame :=
  match records_in seg with
  | [] => []
  | _ :: _ => [rows_of (records_in seg) tz_name]
  end.

(** The error entries of the days, in order. *)
Definition range_entries (fecha_desde : date) (days : list Z)
    (segs : list (list (call * response))) : list string :=
  flat_map (fun '(i, seg) => entries_in (dia_str_display fecha_desde i) seg)
    (combine days segs).

(** The frames of the days that brought records, in order. *)
Definition range_frames (timezone : string) (segs : list (list (call * response)))
  : list DataFrame :=
  flat_map (fun seg => frame_of seg (strip timezone)) segs.

End WithRuntime.

End Spec.

(** ** Plan B: the uploaded payload *)

Module Upload.
Import Py Events.

(** What [if upl is not None:] tells the user (lines 406-427). *)
Inductive report : Type :=
| NotSuccess (success : value)   (* line 412 *)
| NothingNormalized              (* line 422 *)
| Loaded (n : nat)               (* line 425 *)
| InvalidJson (e : exn).         (* line 427 *)

Definition is_none (v : value) : bool :=
  match v with VNone => true | _ => false end.

(** [isinstance(v, list)]. *)
Definition is_list (v : value) : bool :=
  match v with VList _ => true | _ => false end.

(** [data.get(key)]: only a dict has the attribute. *)
Definition data_get (data : value) (key : string) : result value :=
  match data with
  | VDict d => Ok (get d key)
  | _ => Raise AttributeError
  end.

Section Script.
Context {rt : Runtime}.
Variable timezone : string.

(** Lines 414-418: the first truthy of [results], [result] and the
    payload itself when it is a list. *)
Definition result_list (data : value) : result value :=
  results <- data_get data "results" ;;
  if truthy results then Ok results
  else
    result_ <- data_get data "result" ;;
    if truthy result_ then Ok result_
    else Ok (if is_list data then data else VList []).

(** Lines 409-425, the body of the [try]: the report and the buffer
    after. *)
Definition load (data : value) (df_buf : DataFrame) : result (report * DataFrame) :=
  success <- data_get data "success" ;;
  if negb (is_none success) && py_ne_int success 1 then
    Ok (NotSuccess success, df_buf)
  else
    result_list <- result_list data ;;
    df_json <- normalize_result result_list (strip timezone) ;;
    if empty df_json then Ok (NothingNormalized, df_buf)
    else Ok (Loaded (List.length df_json), df_json).

(** Lines 406-427 for a file that is there: [parsed] is what [json.load]
    returns or raises. *)
Definition upload (parsed : result value) (df_buf : DataFrame) : report * DataFrame :=
  match (data <- parsed ;; load data df_buf) with
  | Ok after => after
  | Raise e => (InvalidJson e, df_buf)
  end.

End Script.
End Upload.

(** ** One run of the script *)

Module Session.
Import Py Calendar Events Fetch Upload.

(** Line 395: the buffer takes the rows of a fetch that found some. *)
Definition buffer_after_fetch (o : outcome) (df_buf : DataFrame) : DataFrame :=
  match o with
  | Fetched df_all _ => df_all
  | _ => df_buf
  end.

Section Script.
Context {rt : Runtime}.
Variable upstream : trace -> call -> response.
Variable betsapi_token : string.
Variable sport_id_input : Z.
Variable scope_key : string.
Variable fecha_desde fecha_hasta : date.
Variable timezone : string.

(** Lines 309-431: the fetch when its button was pressed, then the upload
    when a file is there; the buffer after is the frame of the preview. *)
Definition run (pressed : bool) (upl : option (result value))
    (df_buf : DataFrame) (tr : trace) : DataFrame * trace :=
  let '(df_buf, tr) :=
    if pressed then
      let '(o, tr) :=
        do_fetch upstream betsapi_token sport_id_input scope_key fecha_desde
          fecha_hasta timezone tr in
      (buffer_after_fetch o df_buf, tr)
    else (df_buf, tr) in
  match upl with
  | Some parsed => (snd (upload timezone parsed df_buf), tr)
  | None => (df_buf, tr)
  end.

End Script.
End Session.

(** ** A runtime and two endpoints for the closed examples *)

Module Example.
Import Py Calendar Events Fetch.

(** ASCII digits, read in base ten. *)
Fixpoint digits (s : string) (acc : Z) : option Z :=
  match s with
  | EmptyString => Some acc
  | String a rest =>
      let n := Z.of_N (byte a) in
      if (48 <=? n) && (n <=? 57) then digits rest (10 * acc + (n - 48)) else None
  end.

(** A runtime with one zone in its database, the fixed-offset
    [Etc/GMT+6]; [repr] and [int] are filled in for the plain cases only
    (a float prints as a placeholder, a str is quoted without escapes, and
    [int] reads ASCII digits); years below 1000 print as glibc prints
    them, without padding. *)
Definition runtime : Runtime := {|
  float_repr := fun _ => "<float>";
  str_repr := fun s => "'" ++ s ++ "'";
  int_of_str := fun s => match s with EmptyString => None | _ => digits s 0 end;
  ZoneInfo :=
    Some (fun key => if (key =? "Etc/GMT+6")%string then Some (fun _ => -21600) else None);
  strftime_short_year := dec;
|}.

Definition page_of (success : value) (results : list value) : response :=
  Payload (VDict [("success", success); ("results", VList results)]).

(** An endpoint that never runs out: page [n] of any day holds one event,
    numbered [n]. *)
Definition endless : trace -> call -> response :=
  fun _ c => page_of (VInt 1) [VDict [("id", VInt (page c))]].

(** An endpoint for two days.  2024-03-01 has one page, with event 123 and
    two events without identifier, and fails on page 2; 2024-03-02 has
    event 123 again, with other players, under the key [result], and then
    reports [success = 0]. *)
Definition two_days : trace -> call -> response :=
  fun _ c =>
    if (day c =? "20240301")%string then
      if page c =? 1 then
        page_of (VInt 1)
          [VDict [("id", VStr "123"); ("home", VStr "A"); ("away", VStr "B")];
           VDict [("home", VStr "C")];
           VDict [("home", VStr "D")]]
      else Failure "503 Server Error"
    else
      if page c =? 1 then
        Payload (VDict [("success", VInt 1);
                        ("result", VList [VDict [("id", VStr "123"); ("home", VStr "E")]])])
      else Payload (VDict [("success", VInt 0); ("error", VStr "AUTHORIZE_FAILED")]).

(** An endpoint with two events on page 1 of a day and nothing after. *)
Definition short_day : trace -> call -> response :=
  fun _ c =>
    if page c =? 1 then
      page_of (VInt 1) [VDict [("id", VInt 1)]; VDict [("id", VInt 2)]]
    else page_of (VInt 1) [].

(** An endpoint whose body, from the second day on, is a JSON array
    instead of an object. *)
Definition array_body : trace -> call -> response :=
  fun _ c =>
    if (day c =? "20240301")%string then
      if page c =? 1 then page_of (VInt 1) [VDict [("id", VInt 1)]]
      else page_of (VInt 1) []
    else Payload (VList []).

(** The side of C1, with a full name and a generic name. *)
Definition federer : value :=
  VDict [("name_full", VStr "Roger Federer"); ("name", VStr "Federer")].

(** A batch of two objects, with a side that is an object, a side that is
    a number and an epoch that is text. *)
Definition two_objects : list value :=
  [VDict [("id", VInt 7); ("home", VDict [("name", VStr "A")]); ("away", VInt 3);
          ("time", VStr "soon")];
   VDict []].

(** A record whose sides and league carry text names. *)
Definition text_event : list (string * value) :=
  [("id", VInt 9); ("time", VInt 1709251200);
   ("league", VDict [("name", VStr "ATP Acapulco")]);
   ("home", VDict [("name", VStr "A")]); ("away", VStr "B");
   ("sport_id", VStr "13"); ("time_status", VStr "0")].


(** The rows and the error entries of the fetch of 2024-03-01 and
    2024-03-02 from [two_days]. *)
Definition row_123 : row :=
  {| event_key := "123"; event_date := ""; event_time := "";
     first_player := VStr "A"; second_player := VStr "B";
     tournament_name := VStr ""; event_type_type := ""; event_status := "" |}.


Definition row_unkeyed (home : string) : row :=
  {| event_key := ""; event_date := ""; event_time := "";
     first_player := VStr home; second_player := VStr "";
     tournament_name := VStr ""; event_type_type := ""; event_status := "" |}.

Definition two_days_errors : list string :=
  ["2024-03-01 (página 2): error HTTP 503 Server Error";
   "2024-03-02 (página 2): success != 1 (AUTHORIZE_FAILED)"].

Definition two_days_fetch : outcome * trace :=
  do_fetch (rt := runtime) two_days "token" 13 "upcoming"
    (ymd 2024 3 1) (ymd 2024 3 2) "UTC" [].

(** An endpoint that cannot be reached. *)
Definition unreachable : trace -> call -> response :=
  fun _ _ => Failure "Read timed out".

(** An uploaded payload without a success flag, its events under
    [result] and an empty list under [results]; the two events share
    their identifier. *)
Definition uploaded_twins : list (string * value) :=
  [("results", VList []);
   ("result", VList [VDict [("id", VInt 5); ("home", VStr "A")];
                     VDict [("id", VInt 5); ("home", VStr "B")]])].

End Example.

(** ** More vocabulary: readings, shapes, subsequences *)

Module Notions.
Import Py Calendar Events Fetch Spec.

(** The date and the time read off a wall clock, as lines 163 and 168
    format them. *)
Definition reading {rt : Runtime} (w : Z) : string * string :=
  (strftime_wall "%Y-%m-%d" w, strftime_wall "%H:%M:%S" w).

Definition is_digit (a : ascii) : bool := ((48 <=? byte a) && (byte a <=? 57))%N.



(** Text of the shape [dddd-dd-dd]. *)
Definition date_text (s : string) : bool :=
  match list_ascii_of_string s with
  | [y1; y2; y3; y4; h1; m1; m2; h2; d1; d2] =>
      forallb is_digit [y1; y2; y3; y4; m1; m2; d1; d2]
      && Ascii.eqb h1 "-" && Ascii.eqb h2 "-"
  | _ => false
  end.


(** [l1] is [l2] with some elements left out, the others in order. *)
Inductive subseq {A : Type} : list A -> list A -> Prop :=
| subseq_nil : subseq [] []
| subseq_skip (x : A) (l1 l2 : list A) : subseq l1 l2 -> subseq l1 (x :: l2)
| subseq_keep (x : A) (l1 l2 : list A) : subseq l1 l2 -> subseq (x :: l1) (x :: l2).

(** A page without results: the success flag is 1 and the results are
    falsy (missing, null, an empty list). *)
Definition empty_page (r : response) : bool :=
  match r with
  | Payload (VDict p) =>
      negb (py_ne_int (get p "success") 1) && negb (truthy (results_of p))
  | _ => false
  end.

(** The answer is a failed request. *)
Definition is_failure (r : response) : bool :=
  match r with Failure _ => true | Payload _ => false end.

(** An answer that ends its day with no record: a failed request, a
    success flag other than 1, or falsy results. *)
Definition barren (r : response) : bool :=
  match r with
  | Failure _ => true
  | Payload (VDict p) => py_ne_int (get p "success") 1 || negb (truthy (results_of p))
  | Payload _ => false
  end.

(** Every answer of the run is one the whole range goes through. *)
Definition all_well_shaped (evs : list (call * response)) : bool :=
  forallb (fun ev => well_shaped (snd ev)) evs.

Section WithRuntime.
Context {rt : Runtime}.

(** The three tiers of lines 152-170 for an epoch that is an [int]: the
    reading in the zone; the reading in UTC when the zone takes it out of
    [datetime]'s years; nothing when the epoch itself is outside them. *)
Definition localized (ts : Z) (tz_name : string) : string * string :=
  if in_range ts then
    let w := ts + resolve_tz tz_name ts in
    if in_range w then reading w else reading ts
  else ("", "").

End WithRuntime.

End Notions.

(** * Properties *)

Import Py Calendar Events Fetch Spec.
Import Example.

(** ** The calendar *)

(** The two conversions on the first and the last day of [datetime], on
    the epoch and on a leap day. *)
Lemma civil_from_days_samples {rt : Runtime} :
  civil_from_days 0 = (1970, 1, 1)
  /\ civil_from_days (MIN_WALL / 86400) = (1, 1, 1)
  /\ civil_from_days (MAX_WALL / 86400) = (9999, 12, 31)
  /\ civil_from_days (ymd 2024 2 29) = (2024, 2, 29)
  /\ ymd 2024 3 1 = ymd 2024 2 29 + 1
  /\ date_strftime (ymd 2024 3 1) "%Y%m%d" = "20240301".
Proof. repeat split. Qed.

(** ** The Field Extractor *)

Section FieldExtractor.
Context {rt : Runtime}.

(** The first truthy value of a chain [a or b or ... or z]. *)
Lemma orelse_find (vs : list value) (z : value) :
  fold_right py_or z vs = match find truthy vs with Some v => v | None => z end.
Proof.
  induction vs as [| v vs IH]; simpl; [reflexivity |].
  unfold py_or at 1. destruct (truthy v); [reflexivity | exact IH].
Qed.

Lemma extract_name_dict (d : list (string * value)) :
  _extract_name (VDict d) =
  match find truthy (map (get d) side_keys) with
  | Some v => v
  | None => VStr ""
  end.
Proof. unfold _extract_name. rewrite <- orelse_find. reflexivity. Qed.

(** C1, as the code has it.  An absent side gives the empty string and a
    plain string is returned as it is.  For an object the extractor returns
    the first truthy field in the order generic name, English name, full
    name, short name, and the empty string when none is truthy: so a
    truthy generic name wins over a full name, the full name is returned
    when the generic and English names are missing or falsy, and a truthy
    generic name that stands alone is returned. *)
Theorem extract_name_priority :
  _extract_name VNone = VStr ""
  /\ (forall s, _extract_name (VStr s) = VStr s)
  /\ (forall d, _extract_name (VDict d) =
                match find truthy (map (get d) side_keys) with
                | Some v => v
                | None => VStr ""
                end)
  /\ (forall d, truthy (get d "name") = true -> _extract_name (VDict d) = get d "name")
  /\ (forall d, truthy (get d "name") = false -> truthy (get d "name_en") = false ->
                truthy (get d "name_full") = true ->
                _extract_name (VDict d) = get d "name_full")
  /\ (forall d, (forall k, In k side_keys -> truthy (get d k) = false) ->
                _extract_name (VDict d) = VStr "").
Proof.
  split; [reflexivity |]. split; [reflexivity |].
  split; [exact extract_name_dict |].
  repeat split; intros d.
  - intros H. unfold _extract_name, py_or. rewrite H. reflexivity.
  - intros H1 H2 H3. unfold _extract_name, py_or. rewrite H1, H2, H3. reflexivity.
  - intros H. unfold _extract_name, py_or.
    rewrite !H by (simpl; tauto). reflexivity.
Qed.

End FieldExtractor.

Lemma extract_name_priority_witness :
  truthy (get [("name_full", VStr "Roger Federer"); ("name", VStr "Federer")] "name") = true
  /\ _extract_name (rt := Example.runtime) federer = VStr "Federer".
Proof.
  split; [reflexivity |].
  exact (proj1 (proj2 (proj2 (proj2 (extract_name_priority (rt := Example.runtime)))))
           [("name_full", VStr "Roger Federer"); ("name", VStr "Federer")] eq_refl).
Defined.

(** C1 as stated fails: with both a full name and a generic name the
    extractor returns the generic name. *)
Lemma extract_name_full_name_not_first :
  _extract_name (rt := Example.runtime) federer = VStr "Federer"
  /\ VStr "Federer" <> VStr "Roger Federer".
Proof. split; [reflexivity | discriminate]. Qed.

(** ** The Timestamp Localizer *)

Section TimestampLocalizer.
Context {rt : Runtime}.

Lemma resolve_tz_no_zone (tz_name : string) :
  no_zone tz_name -> resolve_tz tz_name = utc.
Proof.
  unfold no_zone, resolve_tz. intros H.
  destruct ZoneInfo as [zone_info |]; [| reflexivity].
  destruct (tz_name =? "")%string eqn:E; simpl; [reflexivity |].
  rewrite (H zone_info eq_refl); [reflexivity |].
  intros ->. discriminate.
Qed.

(** An epoch within [datetime]'s years, read in UTC. *)
Lemma convert_utc (ts : Z) (tz_name : string) :
  ts <> 0 -> in_range ts = true -> resolve_tz tz_name = utc ->
  _convert_epoch_to_date_time (VInt ts) tz_name =
  (strftime_wall "%Y-%m-%d" ts, strftime_wall "%H:%M:%S" ts).
Proof.
  intros Hts Hr Htz. unfold _convert_epoch_to_date_time. simpl truthy.
  destruct (ts =? 0) eqn:E; [apply Z.eqb_eq in E; contradiction |].
  simpl. rewrite Htz. unfold fromtimestamp_utc. rewrite Hr. simpl.
  unfold astimezone, utc. simpl. rewrite Z.sub_0_r, Z.add_0_r, Hr.
  reflexivity.
Qed.

(** C2, as the code has it.  An absent epoch gives two empty strings, and
    so does the epoch 0, whatever the timezone name: line 145 tests the
    epoch for truth before anything else.  An epoch other than 0 within
    [datetime]'s years, with a timezone name that opens no zone, is read in
    UTC; one second after the epoch, with the name ["Invalid/Zone"], that
    is 1970-01-01 and 00:00:01. *)
Theorem convert_epoch_fallback :
  (forall tz_name, _convert_epoch_to_date_time VNone tz_name = ("", ""))
  /\ (forall tz_name, _convert_epoch_to_date_time (VInt 0) tz_name = ("", ""))
  /\ (forall ts tz_name, ts <> 0 -> in_range ts = true -> no_zone tz_name ->
        _convert_epoch_to_date_time (VInt ts) tz_name =
        (strftime_wall "%Y-%m-%d" ts, strftime_wall "%H:%M:%S" ts))
  /\ (no_zone "Invalid/Zone" ->
        _convert_epoch_to_date_time (VInt 1) "Invalid/Zone" = ("1970-01-01", "00:00:01")).
Proof.
  split; [reflexivity |]. split; [reflexivity |]. split.
  - intros ts tz_name Hts Hr Hz. apply convert_utc; auto using resolve_tz_no_zone.
  - intros Hz. rewrite convert_utc; auto using resolve_tz_no_zone.
    discriminate.
Qed.

End TimestampLocalizer.

Lemma convert_epoch_fallback_witness :
  no_zone (rt := Example.runtime) "Invalid/Zone"
  /\ _convert_epoch_to_date_time (rt := Example.runtime) (VInt 1) "Invalid/Zone"
     = ("1970-01-01", "00:00:01").
Proof.
  assert (Hz : no_zone (rt := Example.runtime) "Invalid/Zone").
  { intros zone_info H _. injection H as <-. reflexivity. }
  split; [exact Hz |].
  exact (proj2 (proj2 (proj2 (convert_epoch_fallback (rt := Example.runtime)))) Hz).
Defined.

(** C2 as stated fails: the epoch 0 gives two empty strings, not the first
    instant of 1970. *)
Lemma convert_epoch_zero_is_empty :
  _convert_epoch_to_date_time (rt := Example.runtime) (VInt 0) "Invalid/Zone" = ("", "")
  /\ ("", "") <> ("1970-01-01", "00:00:00").
Proof. split; [reflexivity | discriminate]. Qed.

(** ** The Record Normalizer *)

Section RecordNormalizer.
Context {rt : Runtime}.

Lemma orelse_not_none (vs : list value) (z : value) :
  z <> VNone -> fold_right py_or z vs <> VNone.
Proof.
  intros Hz. induction vs as [| v vs IH]; simpl; [exact Hz |].
  unfold py_or at 1. destruct (truthy v) eqn:E; [| exact IH].
  intros ->. discriminate.
Qed.

Lemma orelse_text (vs : list value) (z : value) :
  is_str z = true ->
  forallb (fun v => is_str v || negb (truthy v)) vs = true ->
  is_str (fold_right py_or z vs) = true.
Proof.
  intros Hz. induction vs as [| v vs IH]; simpl; [intros _; exact Hz |].
  intros H. apply andb_prop in H as [Hv Hvs]. unfold py_or at 1.
  destruct (truthy v); [| auto]. simpl in Hv. rewrite orb_false_r in Hv. exact Hv.
Qed.

Lemma orelse_absent (d : list (string * value)) (keys : list string) (z : value) :
  absent d keys -> fold_right py_or z (map (get d) keys) = z.
Proof.
  induction keys as [| k keys IH]; intros H; simpl; [reflexivity |].
  unfold py_or at 1, get at 1. rewrite (H k) by (left; reflexivity). simpl.
  apply IH. intros k' Hk'. apply H. right. exact Hk'.
Qed.

Lemma extract_name_chain (side : value) :
  _extract_name side =
  match side with
  | VNone => VStr ""
  | VDict d => fold_right py_or (VStr "") (map (get d) side_keys)
  | _ => VStr (py_str side)
  end.
Proof. destruct side; reflexivity. Qed.

Lemma extract_name_not_none (side : value) : _extract_name side <> VNone.
Proof.
  rewrite extract_name_chain.
  destruct side; try discriminate. apply orelse_not_none. discriminate.
Qed.

Lemma extract_name_text (side : value) :
  text_names side_keys side = true -> is_str (_extract_name side) = true.
Proof.
  rewrite extract_name_chain. destruct side; try reflexivity.
  simpl text_names. intros H. apply orelse_text; [reflexivity |].
  unfold side_keys in *. simpl in *. exact H.
Qed.

(** How the extractor degrades: to the empty string, to [str(side)], or to
    a truthy name field of the object, returned as it is. *)
Lemma extract_name_cases (side : value) :
  _extract_name side = VStr ""
  \/ _extract_name side = VStr (py_str side)
  \/ exists d k, side = VDict d /\ In k side_keys
                 /\ _extract_name side = get d k /\ truthy (get d k) = true.
Proof.
  destruct side as [| b | z | f | s | l | d];
    try (right; left; reflexivity); [left; reflexivity |].
  rewrite extract_name_dict.
  destruct (find truthy (map (get d) side_keys)) as [v |] eqn:E; [| left; reflexivity].
  apply find_some in E as [Hin Hv]. apply in_map_iff in Hin as [k [<- Hk]].
  right; right. exists d, k. auto.
Qed.

Lemma normalize_item_dict (d : list (string * value)) (tz_name : string) :
  normalize_item (VDict d) tz_name = Ok (row_of d tz_name).
Proof.
  unfold normalize_item, row_of. simpl fold_right.
  destruct (_convert_epoch_to_date_time _ _). reflexivity.
Qed.

Lemma event_key_absent (d : list (string * value)) (tz_name : string) :
  absent d id_keys -> event_key (row_of d tz_name) = "".
Proof.
  intros Habs. unfold row_of. cbn [event_key].
  rewrite orelse_absent by (intros k Hk; apply Habs; simpl in *; tauto).
  unfold get. rewrite (Habs "event_key") by (simpl; tauto). reflexivity.
Qed.

Lemma normalize_item_other (it : value) (tz_name : string) :
  is_dict it = false -> normalize_item it tz_name = Raise AttributeError.
Proof. destruct it; try reflexivity. discriminate. Qed.

Lemma normalize_items_objects (items : list value) (tz_name : string) :
  if forallb is_dict items
  then exists rows, normalize_items items tz_name = Ok rows
                    /\ List.length rows = List.length items
  else normalize_items items tz_name = Raise AttributeError.
Proof.
  induction items as [| it rest IH]; simpl.
  - exists []. split; reflexivity.
  - destruct (is_dict it) eqn:E; simpl.
    + destruct it; try discriminate. rewrite normalize_item_dict. simpl.
      destruct (forallb is_dict rest).
      * destruct IH as [rows [-> Hlen]]. simpl. eexists. split; [reflexivity |].
        simpl. rewrite Hlen. reflexivity.
      * rewrite IH. reflexivity.
    + rewrite normalize_item_other by exact E. reflexivity.
Qed.

Lemma normalize_result_list (items : list value) (tz_name : string) :
  normalize_result (VList items) tz_name = normalize_items items tz_name.
Proof. destruct items; reflexivity. Qed.

End RecordNormalizer.

Section RecordNormalizerClaims.
Context {rt : Runtime}.

(** C3, as the code has it.  The Field Extractor returns on every value:
    the empty string, [str(side)], or a truthy name field of the object as
    it is.  The Record Normalizer returns a row for every object, whatever
    its sides, league and epoch hold, and a frame with one row per item for
    every list of objects; a falsy input gives the empty frame.  A list
    with an item that is no object makes it raise [AttributeError]. *)
Theorem normalization_raises_on_non_objects_only (tz_name : string) :
  (forall side,
      _extract_name side = VStr ""
      \/ _extract_name side = VStr (py_str side)
      \/ exists d k, side = VDict d /\ In k side_keys
                     /\ _extract_name side = get d k /\ truthy (get d k) = true)
  /\ (forall d, exists r, normalize_item (VDict d) tz_name = Ok r)
  /\ (forall items, forallb is_dict items = true ->
        exists rows, normalize_result (VList items) tz_name = Ok rows
                     /\ List.length rows = List.length items)
  /\ (forall items, forallb is_dict items = false ->
        normalize_result (VList items) tz_name = Raise AttributeError)
  /\ (forall v, truthy v = false -> normalize_result v tz_name = Ok []).
Proof.
  split; [exact extract_name_cases |].
  split; [intros d; eexists; apply normalize_item_dict |].
  split; [| split].
  - intros items H. rewrite normalize_result_list.
    pose proof (normalize_items_objects items tz_name) as Hn.
    rewrite H in Hn. exact Hn.
  - intros items H. rewrite normalize_result_list.
    pose proof (normalize_items_objects items tz_name) as Hn.
    rewrite H in Hn. exact Hn.
  - intros v H. unfold normalize_result, py_or. rewrite H. reflexivity.
Qed.

(** A column whose source keys are all absent: every lookup gives [None]. *)
Ltac absent_case :=
  let Habs := fresh "Habs" in
  intros Habs; unfold py_or, get; rewrite !Habs by (simpl; tauto);
  try split; reflexivity.

Lemma key_of_truthy (v : value) :
  truthy v = true -> match v with VNone => "" | _ => py_str v end = py_str v.
Proof. destruct v; try reflexivity. discriminate. Qed.

Lemma find_truthy_last (vs : list value) (z : value) :
  find truthy (vs ++ [z])%list =
  match find truthy vs with
  | Some v => Some v
  | None => if truthy z then Some z else None
  end.
Proof.
  induction vs as [| v vs IH]; simpl; [reflexivity |].
  destruct (truthy v); [reflexivity | exact IH].
Qed.

(** C4, as the code has it.  The event_key of an object is the string of
    the first TRUTHY value among id, event_id, FI, match_id, event_key;
    when none is truthy it is the string of the event_key field if that is
    present and not null, and the empty string otherwise.  In particular
    it is the empty string when none of the five fields is present. *)
Theorem event_key_first_truthy (d : list (string * value)) (tz_name : string) :
  exists r,
    normalize_item (VDict d) tz_name = Ok r
    /\ event_key r =
       match find truthy (map (get d) id_keys) with
       | Some v => py_str v
       | None => match get d "event_key" with VNone => "" | v => py_str v end
       end
    /\ (absent d id_keys -> event_key r = "").
Proof.
  exists (row_of d tz_name). split; [apply normalize_item_dict |].
  assert (E : event_key (row_of d tz_name) =
              match find truthy (map (get d) id_keys) with
              | Some v => py_str v
              | None => match get d "event_key" with VNone => "" | v => py_str v end
              end).
  { unfold row_of. cbn [event_key]. rewrite orelse_find.
    change id_keys with (["id"; "event_id"; "FI"; "match_id"] ++ ["event_key"])%list.
    rewrite map_app. change (map (get d) ["event_key"]) with [get d "event_key"].
    rewrite find_truthy_last.
    destruct (find truthy (map (get d) ["id"; "event_id"; "FI"; "match_id"]))
      as [v |] eqn:F.
    - apply find_some in F as [_ Hv]. apply key_of_truthy. exact Hv.
    - destruct (truthy (get d "event_key")) eqn:T;
        [| destruct (get d "event_key"); reflexivity].
      apply key_of_truthy. exact T. }
  split; [exact E |].
  apply event_key_absent.
Qed.

(** C5, as the code has it.  The row of an object has the eight columns,
    in order; no cell is null; event_key, event_date, event_time,
    event_type_type and event_status are strings, and so are first_player,
    second_player and tournament_name when the name fields of the sides
    and of the league hold strings or falsy values; a column none of whose
    source keys is present holds the empty string. *)
Theorem row_cells (d : list (string * value)) (tz_name : string) :
  exists r,
    normalize_item (VDict d) tz_name = Ok r
    /\ map fst (cells r) = column_names
    /\ Forall (fun c => snd c <> VNone) (cells r)
    /\ Forall (fun c => In (fst c) text_columns -> is_str (snd c) = true) (cells r)
    /\ (text_record d = true -> Forall (fun c => is_str (snd c) = true) (cells r))
    /\ (absent d id_keys -> event_key r = "")
    /\ (absent d time_keys -> event_date r = "" /\ event_time r = "")
    /\ (absent d home_keys -> first_player r = VStr "")
    /\ (absent d away_keys -> second_player r = VStr "")
    /\ (absent d ["league"] -> tournament_name r = VStr "")
    /\ (absent d ["sport_id"] -> event_type_type r = "")
    /\ (absent d status_keys -> event_status r = "").
Proof.
  exists (row_of d tz_name). split; [apply normalize_item_dict |].
  split; [reflexivity |].
  assert (Hleague : forall l, fold_right py_or (VStr "") (map (get l) league_keys) <> VNone).
  { intros l. apply orelse_not_none. discriminate. }
  split.
  { unfold cells, row_of. simpl.
    repeat (apply Forall_cons; [try discriminate |]); try apply Forall_nil.
    - apply extract_name_not_none.
    - apply extract_name_not_none.
    - destruct (get d "league" orelse VDict []); try discriminate. apply Hleague. }
  split.
  { unfold cells, text_columns. simpl.
    repeat (apply Forall_cons; [try reflexivity |]); try apply Forall_nil;
      simpl; intros H; exfalso;
      repeat (destruct H as [H | H]; [discriminate |]); exact H. }
  split.
  { unfold text_record, home_keys, away_keys. simpl forallb. intros H.
    repeat (apply andb_prop in H as [? H]).
    repeat match goal with H : _ && _ = true |- _ => apply andb_prop in H as [? ?] end.
    unfold cells, row_of. simpl.
    repeat (apply Forall_cons; [try reflexivity |]); try apply Forall_nil.
    - apply extract_name_text. unfold py_or.
      repeat match goal with |- context [truthy ?v] => destruct (truthy v) end; assumption.
    - apply extract_name_text. unfold py_or.
      repeat match goal with |- context [truthy ?v] => destruct (truthy v) end; assumption.
    - unfold py_or at 1. destruct (truthy (get d "league")) eqn:T; [| reflexivity].
      destruct (get d "league"); try reflexivity.
      exact (orelse_text (map (get _) league_keys) (VStr "") eq_refl H). }
  unfold row_of; simpl.
  repeat (split; [solve [absent_case] |]). absent_case.
Qed.

End RecordNormalizerClaims.

Lemma normalization_raises_on_non_objects_only_witness :
  forallb is_dict two_objects = true
  /\ exists rows,
       normalize_result (rt := Example.runtime) (VList two_objects) "UTC" = Ok rows
       /\ List.length rows = List.length two_objects.
Proof.
  split; [reflexivity |].
  exact (proj1 (proj2 (proj2
           (normalization_raises_on_non_objects_only (rt := Example.runtime) "UTC")))
           two_objects eq_refl).
Defined.

(** C3 as stated fails: an item that is no object makes the Record
    Normalizer raise. *)
Lemma normalize_result_raises_on_number :
  normalize_result (rt := Example.runtime) (VList [VDict [("id", VInt 1)]; VInt 7]) "UTC"
  = Raise AttributeError.
Proof. reflexivity. Qed.

Lemma event_key_first_truthy_witness :
  absent [("home", VStr "A")] id_keys
  /\ exists r,
       normalize_item (rt := Example.runtime) (VDict [("home", VStr "A")]) "UTC" = Ok r
       /\ event_key r = "".
Proof.
  assert (Habs : absent [("home", VStr "A")] id_keys).
  { intros k Hk. simpl in Hk.
    repeat (destruct Hk as [<- | Hk]; [reflexivity |]). contradiction. }
  split; [exact Habs |].
  destruct (event_key_first_truthy (rt := Example.runtime) [("home", VStr "A")] "UTC")
    as [r [Hr [_ Hkey]]].
  exists r. split; [exact Hr | exact (Hkey Habs)].
Defined.

(** C4 as stated fails: an id that is present and 0 is passed over for the
    event_id after it. *)
Lemma event_key_skips_zero_id :
  (r <- normalize_item (rt := Example.runtime)
          (VDict [("id", VInt 0); ("event_id", VInt 5)]) "UTC" ;;
   Ok (event_key r)) = Ok "5"
  /\ "5" <> "0".
Proof. split; [reflexivity | discriminate]. Qed.

Lemma row_cells_witness :
  text_record text_event = true
  /\ exists r,
       normalize_item (rt := Example.runtime) (VDict text_event) "Etc/GMT+6" = Ok r
       /\ map fst (cells r) = column_names
       /\ Forall (fun c => is_str (snd c) = true) (cells r).
Proof.
  split; [reflexivity |].
  destruct (row_cells (rt := Example.runtime) text_event "Etc/GMT+6")
    as [r [Hr [Hcols [_ [_ [Htext _]]]]]].
  exists r. split; [exact Hr |]. split; [exact Hcols | exact (Htext eq_refl)].
Defined.

(** C5 as stated fails: a name field that holds a number reaches the row
    as a number. *)
Lemma first_player_can_be_a_number :
  (r <- normalize_item (rt := Example.runtime)
          (VDict [("id", VInt 1); ("home", VDict [("name", VInt 7)])]) "UTC" ;;
   Ok (first_player r)) = Ok (VInt 7)
  /\ is_str (VInt 7) = false.
Proof. split; reflexivity. Qed.

(** ** Deduplication *)

Section Deduplication.

Lemma existsb_eqb_cons (k k' : string) (seen : list string) :
  existsb (String.eqb k) (k' :: seen) = (k =? k')%string || existsb (String.eqb k) seen.
Proof. reflexivity. Qed.

(** Of the rows that carry [k], [drop_seen] keeps the first, unless [k] was
    seen before. *)
Lemma drop_seen_filter (k : string) (df : DataFrame) :
  forall seen,
    filter (has_key k) (drop_seen seen df) =
    if existsb (String.eqb k) seen then []
    else match find (has_key k) df with Some r => [r] | None => [] end.
Proof.
  induction df as [| r rest IH]; intros seen; simpl.
  - destruct (existsb _ seen); reflexivity.
  - unfold has_key at 2. destruct (event_key r =? k)%string eqn:E.
    + apply String.eqb_eq in E. subst k.
      destruct (existsb (String.eqb (event_key r)) seen) eqn:S.
      * rewrite IH, S. reflexivity.
      * simpl. unfold has_key at 1. rewrite String.eqb_refl.
        rewrite IH. simpl. rewrite String.eqb_refl. reflexivity.
    + destruct (existsb (String.eqb (event_key r)) seen) eqn:S.
      * apply IH.
      * simpl. unfold has_key at 1. rewrite E. rewrite IH.
        rewrite existsb_eqb_cons. rewrite String.eqb_sym, E. reflexivity.
Qed.

Lemma drop_duplicates_filter (k : string) (df : DataFrame) :
  filter (has_key k) (drop_duplicates df) =
  match find (has_key k) df with Some r => [r] | None => [] end.
Proof. unfold drop_duplicates. rewrite drop_seen_filter. reflexivity. Qed.

Lemma drop_seen_fresh (df : DataFrame) :
  forall seen r, In r (drop_seen seen df) ->
    In r df /\ existsb (String.eqb (event_key r)) seen = false.
Proof.
  induction df as [| x rest IH]; intros seen r; simpl; [contradiction |].
  destruct (existsb (String.eqb (event_key x)) seen) eqn:S.
  - intros H. apply IH in H as [H1 H2]. auto.
  - intros [<- | H]; [auto |].
    apply IH in H as [H1 H2]. rewrite existsb_eqb_cons in H2.
    apply orb_false_elim in H2 as [_ H2]. auto.
Qed.

(** No key occurs twice in the result. *)
Lemma drop_seen_NoDup (df : DataFrame) :
  forall seen, NoDup (map event_key (drop_seen seen df)).
Proof.
  induction df as [| x rest IH]; intros seen; simpl; [constructor |].
  destruct (existsb (String.eqb (event_key x)) seen) eqn:S; [apply IH |].
  simpl. constructor; [| apply IH].
  intros Hin. apply in_map_iff in Hin as [r [Hk Hr]].
  apply drop_seen_fresh in Hr as [_ Hr].
  rewrite existsb_eqb_cons, Hk, String.eqb_refl in Hr. discriminate.
Qed.





End Deduplication.

(** ** Pagination *)

Section Pagination.
Context {rt : Runtime}.
Variable upstream : trace -> call -> response.
Variable betsapi_token : string.
Variable sport_id_input : Z.
Variable scope_key : string.

Lemma answered_all (Q : response -> Prop) :
  (forall tr c, Q (upstream tr c)) ->
  forall tr seg, answered upstream tr seg -> Forall (fun ev => Q (snd ev)) seg.
Proof.
  intros HQ tr seg H. induction H; constructor; [apply HQ | assumption].
Qed.

Lemma answered_app (tr : trace) (seg1 seg2 : list (call * response)) :
  answered upstream tr seg1 ->
  answered upstream (tr ++ seg1)%list seg2 ->
  answered upstream tr (seg1 ++ seg2)%list.
Proof.
  intros H1. revert seg2. induction H1 as [tr | tr c seg H IH]; intros seg2 H2.
  - rewrite app_nil_r in H2. exact H2.
  - simpl. constructor. apply IH. rewrite <- app_assoc. exact H2.
Qed.

(** The loop goes on only below the ceiling. *)
Lemma continue_below_ceiling dia page acc errores r page' acc' :
  page_body dia page acc errores r = Continue page' acc' ->
  page' = page + 1 /\ page' <= MAX_PAGES_PER_DAY.
Proof.
  unfold page_body.
  destruct r as [e | [ | | | | | | p]]; try discriminate.
  destruct (py_ne_int _ _); try discriminate.
  destruct (negb _); try discriminate.
  destruct (py_iter _); try discriminate.
  destruct (page + 1 >? MAX_PAGES_PER_DAY) eqn:E; try discriminate.
  intros H; inversion H; subst. split; [reflexivity | lia].
Qed.

Lemma falsy_iter (v : value) (items : list value) :
  truthy v = false -> py_iter v = Ok items -> items = [].
Proof.
  destruct v as [| b | z | f | s | l | d]; simpl; try discriminate.
  - intros H E. injection E as <-. destruct s; [reflexivity | discriminate].
  - intros H E. injection E as <-. destruct l; [reflexivity | discriminate].
  - intros H E. injection E as <-. destruct d; [reflexivity | discriminate].
Qed.

(** What an iteration does with an answer the loop can go through. *)
Lemma page_body_pageable dia page acc errores r :
  pageable r = true ->
  page_body dia page acc errores r =
  if more_pages page r then Continue (page + 1) (acc ++ records_of r)%list
  else Break (Ok ((acc ++ records_of r)%list,
                  (errores ++ entries_of dia page r)%list)).
Proof.
  unfold pageable, page_body, more_pages, records_of, entries_of.
  destruct r as [e | [| b | z | f | s | l | p]]; try discriminate.
  - intros _. rewrite app_nil_r. reflexivity.
  - destruct (py_ne_int (get p "success") 1); simpl.
    + intros _. rewrite app_nil_r. reflexivity.
    + destruct (truthy (results_of p)) eqn:T; simpl.
      * destruct (py_iter (results_of p)) as [items | e]; [intros _ | discriminate].
        rewrite Z.gtb_ltb, Z.ltb_antisym.
        destruct (page + 1 <=? MAX_PAGES_PER_DAY); reflexivity.
      * intros _. destruct (py_iter (results_of p)) as [items | e] eqn:I.
        -- rewrite (falsy_iter _ _ T I), !app_nil_r. reflexivity.
        -- rewrite !app_nil_r. reflexivity.
Qed.

(** On any other answer the iteration raises. *)
Lemma page_body_not_pageable dia page acc errores r :
  pageable r = false -> exists e, page_body dia page acc errores r = Break (Raise e).
Proof.
  unfold pageable, page_body.
  destruct r as [e | [| b | z | f | s | l | p]]; try discriminate;
    try (intros _; eexists; reflexivity).
  destruct (py_ne_int (get p "success") 1); [discriminate |]. simpl.
  destruct (truthy (results_of p)); [| discriminate]. simpl.
  destruct (py_iter (results_of p)) as [items | e]; [discriminate |].
  intros _. eexists; reflexivity.
Qed.

Lemma more_pages_no_entry dia page r :
  more_pages page r = true -> entries_of dia page r = [].
Proof.
  unfold more_pages, entries_of.
  destruct r as [e | [| b | z | f | s | l | p]]; try discriminate.
  destruct (py_ne_int (get p "success") 1); [discriminate |]. simpl.
  destruct (truthy (results_of p)); [| discriminate]. simpl.
  rewrite Z.gtb_ltb, Z.ltb_antisym. intros ->. reflexivity.
Qed.

Lemma full_page_pageable r : full_page r = true -> pageable r = true.
Proof.
  unfold full_page, pageable.
  destruct r as [e | [| b | z | f | s | l | p]]; try discriminate.
  destruct (py_ne_int (get p "success") 1); [discriminate |]. simpl.
  destruct (results_of p) as [| | | | | [| x l] |]; try discriminate. reflexivity.
Qed.

Lemma full_page_more page r :
  full_page r = true -> more_pages page r = (page + 1 <=? MAX_PAGES_PER_DAY).
Proof.
  unfold full_page, more_pages.
  destruct r as [e | [| b | z | f | s | l | p]]; try discriminate.
  destruct (py_ne_int (get p "success") 1); [discriminate |]. simpl.
  destruct (results_of p) as [| | | | | [| x l] |]; try discriminate. reflexivity.
Qed.

Lemma pages_from_S (page : Z) (n : nat) :
  pages_from page (S n) = page :: pages_from (page + 1) n.
Proof.
  unfold pages_from. simpl. rewrite Z.add_0_r. f_equal.
  rewrite <- seq_shift, map_map. apply map_ext. intros k. lia.
Qed.

#[local] Opaque MAX_PAGES_PER_DAY.

(** The loop of a day, from [page] on: the trace grows by a run of
    requests for the pages in a row; when their answers can be gone
    through, the loop returns the records and the error entries of the run
    after those it started with; and when all the answers are pages with
    results, only the ceiling ends the run. *)
Lemma page_loop_run day_param dia page acc errores tr :
  exists seg,
    snd (page_loop upstream betsapi_token sport_id_input scope_key
           day_param dia page acc errores tr) = (tr ++ seg)%list
    /\ answered upstream tr seg
    /\ day_requests betsapi_token sport_id_input scope_key day_param page seg
    /\ (Forall (fun ev => pageable (snd ev) = true) seg ->
        fst (page_loop upstream betsapi_token sport_id_input scope_key
               day_param dia page acc errores tr)
        = Ok ((acc ++ records_in seg)%list, (errores ++ entries_in dia seg)%list))
    /\ (Forall (fun ev => full_page (snd ev) = true) seg ->
        page <= MAX_PAGES_PER_DAY ->
        Z.of_nat (List.length seg) = MAX_PAGES_PER_DAY + 1 - page).
Proof.
  apply (page_loop_elim upstream betsapi_token sport_id_input scope_key
    (fun day_param dia page acc errores tr res =>
       exists seg,
         snd res = (tr ++ seg)%list
         /\ answered upstream tr seg
         /\ day_requests betsapi_token sport_id_input scope_key day_param page seg
         /\ (Forall (fun ev => pageable (snd ev) = true) seg ->
             fst res = Ok ((acc ++ records_in seg)%list,
                           (errores ++ entries_in dia seg)%list))
         /\ (Forall (fun ev => full_page (snd ev) = true) seg ->
             page <= MAX_PAGES_PER_DAY ->
             Z.of_nat (List.length seg) = MAX_PAGES_PER_DAY + 1 - page)));
    clear day_param dia page acc errores tr.
  - (* the iteration breaks *)
    intros day_param dia page acc errores tr out tr' e _.
    unfold iteration, fetch_api_day in e. injection e as Hout Htr.
    set (c := request (strip betsapi_token) day_param sport_id_input scope_key page) in *.
    exists [(c, upstream tr c)]. simpl.
    split; [symmetry; exact Htr |].
    split; [repeat constructor |].
    split; [| split].
    + unfold day_requests, pages_from. simpl. rewrite Z.add_0_r.
      repeat split; [lia | lia].
    + intros Hp. inversion Hp as [| ? ? Hr _]; subst. simpl in Hr.
      rewrite (page_body_pageable _ _ _ _ _ Hr) in Hout.
      destruct (more_pages page (upstream tr c)); [discriminate |].
      injection Hout as <-. unfold records_in, entries_in. simpl.
      rewrite !app_nil_r. reflexivity.
    + intros Hf Hpage. inversion Hf as [| ? ? Hr _]; subst. simpl in Hr.
      rewrite (page_body_pageable _ _ _ _ _ (full_page_pageable _ Hr)) in Hout.
      rewrite (full_page_more page _ Hr) in Hout.
      destruct (page + 1 <=? MAX_PAGES_PER_DAY) eqn:E; [discriminate |].
      apply Z.leb_gt in E. lia.
  - (* the iteration goes on *)
    intros day_param dia page acc errores tr page' acc' tr' H IH _.
    unfold iteration, fetch_api_day in H. injection H as Hstep Htr.
    set (c := request (strip betsapi_token) day_param sport_id_input scope_key page) in *.
    destruct IH as [seg [Hsnd [Hans [[Hreq [Hlen Hbound]] [Hok Hfull]]]]].
    pose proof (continue_below_ceiling _ _ _ _ _ _ _ Hstep) as [-> Hle].
    exists ((c, upstream tr c) :: seg).
    split; [rewrite Hsnd, <- Htr, <- app_assoc; reflexivity |].
    split; [constructor; rewrite Htr; exact Hans |].
    split; [| split].
    + unfold day_requests. simpl List.length. rewrite pages_from_S. simpl.
      rewrite Hreq. repeat split; lia.
    + intros Hp. inversion Hp as [| ? ? Hr Hseg]; subst. simpl in Hr.
      rewrite (page_body_pageable _ _ _ _ _ Hr) in Hstep.
      destruct (more_pages page (upstream tr c)) eqn:M; [| discriminate].
      injection Hstep as <-.
      rewrite (Hok Hseg). unfold records_in, entries_in. simpl.
      rewrite (more_pages_no_entry _ _ _ M). simpl.
      rewrite <- app_assoc. reflexivity.
    + intros Hf Hpage. inversion Hf as [| ? ? Hr Hseg]; subst.
      simpl List.length. rewrite Nat2Z.inj_succ, (Hfull Hseg Hle). lia.
Qed.

End Pagination.

(** ** The range of days *)

Section RowsOfRecords.
Context {rt : Runtime}.

Lemma normalize_items_rows (records : list value) (tz_name : string) :
  forallb is_dict records = true ->
  normalize_items records tz_name = Ok (rows_of records tz_name).
Proof.
  induction records as [| it rest IH]; simpl; [reflexivity |].
  intros H. apply andb_prop in H as [Hit Hrest].
  destruct it; try discriminate. rewrite normalize_item_dict. simpl.
  rewrite (IH Hrest). reflexivity.
Qed.

End RowsOfRecords.

Section Range.
Context {rt : Runtime}.
Variable upstream : trace -> call -> response.
Variable betsapi_token : string.
Variable sport_id_input : Z.
Variable scope_key : string.
Variable fecha_desde fecha_hasta : date.
Variable timezone : string.

Hypothesis upstream_well_shaped : forall tr c, well_shaped (upstream tr c) = true.

Lemma forallb_flat_map {A B : Type} (p : B -> bool) (f : A -> list B) (l : list A) :
  Forall (fun x => forallb p (f x) = true) l -> forallb p (flat_map f l) = true.
Proof.
  induction 1 as [| x l Hx Hl IH]; simpl; [reflexivity |].
  rewrite forallb_app, Hx, IH. reflexivity.
Qed.



End Range.

#[local] Transparent MAX_PAGES_PER_DAY.

(** ** The Day-Paginator *)

Lemma full_pages_entries {rt : Runtime} (dia : string) (seg : list (call * response)) :
  forall first,
    Forall (fun ev => full_page (snd ev) = true) seg ->
    map (fun ev => page (fst ev)) seg = pages_from first (List.length seg) ->
    (1 <= List.length seg)%nat ->
    Z.of_nat (List.length seg) = MAX_PAGES_PER_DAY + 1 - first ->
    entries_in dia seg = [error_ceiling dia].
Proof.
  induction seg as [| [c r] rest IH]; intros pg Hfull Hpages Hlen Hn;
    [simpl in Hlen; lia |].
  inversion Hfull as [| ? ? Hr Hrest]; subst. simpl in Hr.
  simpl List.length in *. rewrite pages_from_S in Hpages.
  simpl in Hpages. injection Hpages as Hc Hpages.
  unfold entries_in. simpl. fold (entries_in dia rest).
  assert (E : entries_of dia (page c) r =
              if page c + 1 >? MAX_PAGES_PER_DAY then [error_ceiling dia] else []).
  { unfold full_page in Hr. unfold entries_of.
    destruct r as [e | [| b | z | f | s | l | p]]; try discriminate.
    destruct (py_ne_int (get p "success") 1); [discriminate |]. simpl in Hr.
    destruct (results_of p) as [| | | | | [| x l] |]; try discriminate. reflexivity. }
  rewrite E, Hc. destruct rest as [| ev rest'].
  - simpl List.length in Hn. replace (pg + 1 >? MAX_PAGES_PER_DAY) with true
      by (symmetry; apply Z.gtb_lt; lia). reflexivity.
  - replace (pg + 1 >? MAX_PAGES_PER_DAY) with false
      by (symmetry; rewrite Z.gtb_ltb; apply Z.ltb_ge; simpl List.length in Hn; lia).
    simpl app. apply (IH (pg + 1)); auto.
    + simpl; lia.
    + simpl List.length in *. lia.
Qed.

Lemma pages_of_requests (token day_str : string) (sport_id : Z) (scope : string)
    (pages : list Z) :
  map page (map (request token day_str sport_id scope) pages) = pages.
Proof.
  induction pages as [| p pages IH]; simpl; [reflexivity |].
  rewrite IH. reflexivity.
Qed.

Lemma full_page_records (r : response) : full_page r = true -> records_of r <> [].
Proof.
  unfold full_page, records_of.
  destruct r as [e | [| b | z | f | s | l | p]]; try discriminate.
  destruct (py_ne_int (get p "success") 1); [discriminate |]. simpl.
  destruct (results_of p) as [| | | | | [| x l] |]; discriminate.
Qed.

(** C6.  The loop of a day always ends, after at least one and at most
    [MAX_PAGES_PER_DAY] requests.  When every answer of the endpoint is a
    page with results, it ends after exactly [MAX_PAGES_PER_DAY] = 20
    requests, for the pages 1 to 20 of that day; it has accumulated the
    records of these 20 pages, none of them empty, and it has added one
    entry to [errores], the ceiling caveat of that day. *)
Theorem pagination_ceiling {rt : Runtime} (upstream : trace -> call -> response)
    (betsapi_token : string) (sport_id_input : Z) (scope_key : string)
    (day_param dia_str_display : string) (errores : list string) (tr : trace) :
  (exists seg,
      snd (page_loop upstream betsapi_token sport_id_input scope_key
             day_param dia_str_display 1 [] errores tr) = (tr ++ seg)%list
      /\ (1 <= List.length seg)%nat
      /\ Z.of_nat (List.length seg) <= MAX_PAGES_PER_DAY)
  /\ ((forall tr c, full_page (upstream tr c) = true) ->
      exists seg,
        page_loop upstream betsapi_token sport_id_input scope_key
          day_param dia_str_display 1 [] errores tr
        = (Ok (records_in seg, (errores ++ [error_ceiling dia_str_display])%list),
           (tr ++ seg)%list)
        /\ answered upstream tr seg
        /\ map fst seg =
           map (request (strip betsapi_token) day_param sport_id_input scope_key)
               (pages_from 1 20)
        /\ Z.of_nat (List.length seg) = MAX_PAGES_PER_DAY
        /\ Forall (fun ev => records_of (snd ev) <> []) seg).
Proof.
  destruct (page_loop_run upstream betsapi_token sport_id_input scope_key
              day_param dia_str_display 1 [] errores tr)
    as [seg [Hsnd [Hans [[Hreq [Hlen Hbound]] [Hok Hfull]]]]].
  split.
  - exists seg. split; [exact Hsnd |]. split; [exact Hlen |].
    unfold MAX_PAGES_PER_DAY in *. lia.
  - intros Hup. exists seg.
    pose proof (answered_all upstream (fun r => full_page r = true) Hup tr seg Hans) as Hf.
    assert (Hp : Forall (fun ev => pageable (snd ev) = true) seg).
    { eapply Forall_impl; [| exact Hf]. intros ev. apply full_page_pageable. }
    assert (Hn : Z.of_nat (List.length seg) = MAX_PAGES_PER_DAY).
    { rewrite (Hfull Hf) by (unfold MAX_PAGES_PER_DAY; lia). lia. }
    assert (Hn' : List.length seg = 20%nat) by (unfold MAX_PAGES_PER_DAY in Hn; lia).
    specialize (Hok Hp).
    destruct (page_loop upstream betsapi_token sport_id_input scope_key
                day_param dia_str_display 1 [] errores tr) as [out tr'].
    simpl in Hsnd, Hok. subst out tr'.
    split; [| split; [exact Hans | split; [| split; [exact Hn |]]]].
    + rewrite (full_pages_entries dia_str_display seg 1 Hf);
        [reflexivity | | exact Hlen | lia].
      rewrite <- (map_map fst page), Hreq. apply pages_of_requests.
    + rewrite Hreq, Hn'. reflexivity.
    + eapply Forall_impl; [| exact Hf]. intros ev. apply full_page_records.
Qed.

Lemma endless_full_pages :
  forall tr c, full_page (Example.endless tr c) = true.
Proof. intros tr c. reflexivity. Qed.

Lemma pagination_ceiling_witness :
  (forall tr c, full_page (Example.endless tr c) = true)
  /\ exists seg,
       page_loop (rt := Example.runtime) Example.endless "token" 13 "upcoming"
         "20240301" "2024-03-01" 1 [] [] []
       = (Ok (records_in seg,
              ["2024-03-01: se alcanzó MAX_PAGES_PER_DAY=20, podrían faltar eventos."]),
          seg)
       /\ map (fun ev => page (fst ev)) seg
          = [1; 2; 3; 4; 5; 6; 7; 8; 9; 10; 11; 12; 13; 14; 15; 16; 17; 18; 19; 20].
Proof.
  split; [exact endless_full_pages |].
  destruct (proj2 (pagination_ceiling (rt := Example.runtime) Example.endless
                     "token" 13 "upcoming" "20240301" "2024-03-01" [] [])
              endless_full_pages)
    as [seg [Hrun [_ [Hreq _]]]].
  exists seg. split; [exact Hrun |].
  rewrite <- (map_map fst page), Hreq. reflexivity.
Defined.

(** A day ends without an error entry at its first empty page. *)
Lemma empty_page_ends_day :
  exists seg,
    page_loop (rt := Example.runtime) short_day "token" 13 "upcoming"
      "20240301" "2024-03-01" 1 [] [] []
    = (Ok ([VDict [("id", VInt 1)]; VDict [("id", VInt 2)]], []), seg)
    /\ map (fun ev => page (fst ev)) seg = [1; 2].
Proof. eexists. split; vm_compute; reflexivity. Qed.

(** ** The Range Orchestrator *)

Lemma drop_duplicates_when_keyed (df : DataFrame) :
  (if existsb (String.eqb "event_key") (columns df) then drop_duplicates df else df)
  = drop_duplicates df.
Proof. destruct df; reflexivity. Qed.

(** A key of the frame is still a key after [drop_duplicates]. *)
Lemma drop_duplicates_keeps_key (df : DataFrame) (r : row) :
  In r df -> exists r', In r' (drop_duplicates df) /\ event_key r' = event_key r.
Proof.
  intros Hin.
  destruct (find (has_key (event_key r)) df) as [r' |] eqn:F.
  - exists r'. pose proof (drop_duplicates_filter (event_key r) df) as E.
    rewrite F in E.
    assert (Hr' : In r' (filter (has_key (event_key r)) (drop_duplicates df)))
      by (rewrite E; left; reflexivity).
    apply filter_In in Hr' as [H1 H2]. split; [exact H1 |].
    apply String.eqb_eq. exact H2.
  - apply (find_none _ _ F) in Hin. unfold has_key in Hin.
    rewrite String.eqb_refl in Hin. discriminate.
Qed.

(** C7, as the code has it.  With the end date before the start date the
    fetch stops at once and sends no request: with the range error when
    the token is not blank, and with the warning about the missing token,
    which is checked first, when it is blank. *)
Theorem invalid_range_sends_no_request {rt : Runtime}
    (upstream : trace -> call -> response) (betsapi_token : string)
    (sport_id_input : Z) (scope_key : string) (fecha_desde fecha_hasta : date)
    (timezone : string) (tr : trace) :
  fecha_hasta < fecha_desde ->
  do_fetch upstream betsapi_token sport_id_input scope_key fecha_desde fecha_hasta
    timezone tr
  = (if (strip betsapi_token =? "")%string then TokenMissing else InvalidRange, tr).
Proof.
  intros H. unfold do_fetch.
  destruct (strip betsapi_token =? "")%string; [reflexivity |].
  apply Z.ltb_lt in H. rewrite H. reflexivity.
Qed.

Lemma invalid_range_sends_no_request_witness :
  ymd 2024 3 1 < ymd 2024 3 5
  /\ do_fetch (rt := Example.runtime) Example.endless "token" 13 "upcoming"
       (ymd 2024 3 5) (ymd 2024 3 1) "UTC" []
     = (InvalidRange, []).
Proof.
  assert (H : ymd 2024 3 1 < ymd 2024 3 5) by reflexivity.
  split; [exact H |].
  exact (invalid_range_sends_no_request (rt := Example.runtime) Example.endless
           "token" 13 "upcoming" (ymd 2024 3 5) (ymd 2024 3 1) "UTC" [] H).
Defined.

(** C7 as stated fails: with no token in the form, the fetch over a
    reversed range ends with the token warning, not with the range error. *)
Lemma invalid_range_blank_token :
  do_fetch (rt := Example.runtime) Example.endless "" 13 "upcoming"
    (ymd 2024 3 5) (ymd 2024 3 1) "UTC" []
  = (TokenMissing, [])
  /\ TokenMissing <> InvalidRange.
Proof. split; [reflexivity | discriminate]. Qed.


(** Beyond the answers of C9: a body that is no object raises at line 342,
    outside the [try] of line 330, and the handler of line 403 ends the
    fetch; the rows of the days before are not kept. *)
Lemma array_body_ends_fetch :
  fst (do_fetch (rt := Example.runtime) array_body "token" 13 "upcoming"
         (ymd 2024 3 1) (ymd 2024 3 2) "UTC" [])
  = GeneralError AttributeError.
Proof. vm_compute. reflexivity. Qed.







(** ** Records without identifier *)




(** * Further properties *)

Import Notions.

(** ** The Timestamp Localizer, further *)

Section LocalizerFurther.
Context {rt : Runtime}.

Lemma convert_int (ts : Z) (tz_name : string) :
  ts <> 0 -> _convert_epoch_to_date_time (VInt ts) tz_name = localized ts tz_name.
Proof.
  intros Hts. unfold _convert_epoch_to_date_time, localized. simpl truthy.
  destruct (ts =? 0) eqn:E; [apply Z.eqb_eq in E; contradiction |].
  simpl. unfold utcfromtimestamp, fromtimestamp_utc.
  destruct (in_range ts) eqn:R; [| reflexivity].
  simpl. unfold astimezone. simpl. rewrite Z.sub_0_r.
  destruct (in_range (ts + resolve_tz tz_name ts)); reflexivity.
Qed.

Lemma convert_coerced (v : value) (ts : Z) (tz_name : string) :
  truthy v = true -> py_int v = Ok ts ->
  _convert_epoch_to_date_time v tz_name = localized ts tz_name.
Proof.
  intros Hv Hi. unfold _convert_epoch_to_date_time, localized.
  rewrite Hv, Hi. simpl. unfold utcfromtimestamp, fromtimestamp_utc.
  destruct (in_range ts) eqn:R; [| reflexivity].
  simpl. unfold astimezone. simpl. rewrite Z.sub_0_r.
  destruct (in_range (ts + resolve_tz tz_name ts)); reflexivity.
Qed.

Lemma resolve_tz_known (tz_name : string) zone_info (zone : tzinfo) :
  ZoneInfo = Some zone_info -> tz_name <> "" -> zone_info tz_name = Some zone ->
  resolve_tz tz_name = zone.
Proof.
  intros HZ Hn Hz. unfold resolve_tz. rewrite HZ.
  destruct (tz_name =? "")%string eqn:E; [apply String.eqb_eq in E; contradiction |].
  simpl. rewrite Hz. reflexivity.
Qed.

(** X1.  For an epoch that is an int other than 0 and a timezone name that
    the zone database knows: an epoch outside [datetime]'s years gives two
    empty strings; otherwise the result is the date and time of the epoch
    shifted by the zone's offset at that instant, unless the shift leaves
    [datetime]'s years, and then it is the date and time in UTC.  The
    date and the time are what [strftime] prints for that reading, so a
    year below 1000 comes out as the platform prints it: the first
    instant of [datetime] in a zone six hours behind UTC, which the shift
    would take to the year 0, reads 1-01-01 00:00:00 under glibc. *)
Theorem localizer_tiers (ts : Z) (tz_name : string) zone_info (zone : tzinfo) :
  ZoneInfo = Some zone_info -> tz_name <> "" -> zone_info tz_name = Some zone ->
  ts <> 0 ->
  _convert_epoch_to_date_time (VInt ts) tz_name =
  if in_range ts then
    if in_range (ts + zone ts) then reading (ts + zone ts) else reading ts
  else ("", "").
Proof.
  intros HZ Hn Hz Hts. rewrite (convert_int ts tz_name Hts). unfold localized.
  rewrite (resolve_tz_known tz_name zone_info zone HZ Hn Hz). reflexivity.
Qed.

End LocalizerFurther.

Lemma localizer_tiers_witness :
  ZoneInfo (Runtime := Example.runtime)
    = Some (fun key => if (key =? "Etc/GMT+6")%string then Some (fun _ => -21600) else None)
  /\ "Etc/GMT+6" <> ""
  /\ 1709251200 <> 0
  /\ _convert_epoch_to_date_time (rt := Example.runtime) (VInt 1709251200) "Etc/GMT+6"
     = ("2024-02-29", "18:00:00")
  /\ _convert_epoch_to_date_time (rt := Example.runtime) (VInt MIN_WALL) "Etc/GMT+6"
     = ("1-01-01", "00:00:00").
Proof.
  assert (Hn : "Etc/GMT+6" <> "") by discriminate.
  assert (H1 : 1709251200 <> 0) by discriminate.
  assert (H2 : MIN_WALL <> 0) by discriminate.
  split; [reflexivity |]. split; [exact Hn |]. split; [exact H1 |]. split.
  - exact (localizer_tiers (rt := Example.runtime) 1709251200 "Etc/GMT+6" _
             (fun _ => -21600) eq_refl Hn eq_refl H1).
  - exact (localizer_tiers (rt := Example.runtime) MIN_WALL "Etc/GMT+6" _
             (fun _ => -21600) eq_refl Hn eq_refl H2).
Defined.

Section LocalizerCoercion.
Context {rt : Runtime}.

(** X2.  How the epoch is coerced.  A falsy value of any type gives two
    empty strings, and so does a truthy value that [int] refuses: text
    that is no integer literal, a list, an object, an infinite float or a
    NaN.  [True] counts as 1, a finite float is truncated toward zero and
    integer text is read.  The epoch 0 is dropped only as a falsy value:
    the text ["0"] is truthy, so it is read as the first instant of 1970,
    which the number 0 never is. *)
Theorem epoch_coercion (tz_name : string) :
  (forall v, truthy v = false -> _convert_epoch_to_date_time v tz_name = ("", ""))
  /\ (forall s, s <> "" -> int_of_str s = None ->
        _convert_epoch_to_date_time (VStr s) tz_name = ("", ""))
  /\ (forall l, _convert_epoch_to_date_time (VList l) tz_name = ("", ""))
  /\ (forall d, _convert_epoch_to_date_time (VDict d) tz_name = ("", ""))
  /\ (forall b, _convert_epoch_to_date_time (VFloat (S754_infinity b)) tz_name = ("", ""))
  /\ _convert_epoch_to_date_time (VFloat S754_nan) tz_name = ("", "")
  /\ _convert_epoch_to_date_time (VBool true) tz_name = localized 1 tz_name
  /\ (forall s m e ts, float_to_int (S754_finite s m e) = Ok ts ->
        _convert_epoch_to_date_time (VFloat (S754_finite s m e)) tz_name
        = localized ts tz_name)
  /\ (forall s ts, s <> "" -> int_of_str s = Some ts ->
        _convert_epoch_to_date_time (VStr s) tz_name = localized ts tz_name)
  /\ (int_of_str "0" = Some 0 -> no_zone tz_name ->
        _convert_epoch_to_date_time (VStr "0") tz_name = ("1970-01-01", "00:00:00")
        /\ _convert_epoch_to_date_time (VInt 0) tz_name = ("", "")).
Proof.
  assert (Hstr : forall s, s <> "" -> truthy (VStr s) = true).
  { intros s Hs. simpl. destruct s; [contradiction | reflexivity]. }
  split; [intros v Hv; unfold _convert_epoch_to_date_time; rewrite Hv; reflexivity |].
  split.
  { intros s Hs Hi. unfold _convert_epoch_to_date_time. rewrite (Hstr s Hs).
    simpl. rewrite Hi. reflexivity. }
  split; [intros [| x l]; reflexivity |].
  split; [intros [| x d]; reflexivity |].
  split; [reflexivity |]. split; [reflexivity |].
  split; [apply convert_coerced; reflexivity |].
  split; [intros s m e ts H; apply convert_coerced; [reflexivity | exact H] |].
  split.
  { intros s ts Hs Hi. apply convert_coerced; [exact (Hstr s Hs) |].
    simpl. rewrite Hi. reflexivity. }
  intros H0 Hz. split; [| reflexivity].
  rewrite (convert_coerced (VStr "0") 0 tz_name eq_refl)
    by (simpl; rewrite H0; reflexivity).
  unfold localized. rewrite (resolve_tz_no_zone tz_name Hz). reflexivity.
Qed.

End LocalizerCoercion.

Lemma epoch_coercion_witness :
  int_of_str (Runtime := Example.runtime) "0" = Some 0
  /\ no_zone (rt := Example.runtime) "Invalid/Zone"
  /\ _convert_epoch_to_date_time (rt := Example.runtime) (VStr "0") "Invalid/Zone"
     = ("1970-01-01", "00:00:00")
  /\ _convert_epoch_to_date_time (rt := Example.runtime) (VInt 0) "Invalid/Zone" = ("", "").
Proof.
  assert (Hz : no_zone (rt := Example.runtime) "Invalid/Zone").
  { intros zone_info H _. injection H as <-. reflexivity. }
  split; [reflexivity |]. split; [exact Hz |].
  exact (proj2 (proj2 (proj2 (proj2 (proj2 (proj2 (proj2 (proj2 (proj2
           (epoch_coercion (rt := Example.runtime) "Invalid/Zone")))))))))
           eq_refl Hz).
Defined.

(** ** The shape of event_date and event_time *)

Section ReadingShape.








Context {rt : Runtime}.




End ReadingShape.

(** The last second of the year 999 under glibc: a date of nine
    characters. *)
Lemma reading_of_the_year_999 :
  _convert_epoch_to_date_time (rt := Example.runtime) (VInt (-30610224001)) "UTC"
  = ("999-12-31", "23:59:59")
  /\ date_text "999-12-31" = false.
Proof. split; reflexivity. Qed.

(** ** The Record Normalizer, column by column *)

Section ColumnsFurther.
Context {rt : Runtime}.

Lemma py_or_truthy (a b : value) : truthy a = true -> a orelse b = a.
Proof. intros H. unfold py_or. rewrite H. reflexivity. Qed.

Lemma py_or_falsy (a b : value) : truthy a = false -> a orelse b = b.
Proof. intros H. unfold py_or. rewrite H. reflexivity. Qed.

(** X4.  The tournament name of a record.  A falsy league, of any type
    (absent, null, 0, empty text, empty list, empty object), gives the
    empty string; a league that is an object gives its first truthy field
    among name, name_en and cc, as it is, and the empty string when none
    is truthy; any other truthy league gives [str(league)], so text is
    kept as it is. *)
Theorem tournament_name_lookup (d : list (string * value)) (tz_name : string) :
  exists r,
    normalize_item (VDict d) tz_name = Ok r
    /\ tournament_name r =
       match get d "league" with
       | VDict l =>
           match find truthy (map (get l) league_keys) with
           | Some v => v
           | None => VStr ""
           end
       | league => if truthy league then VStr (py_str league) else VStr ""
       end
    /\ (forall s, get d "league" = VStr s -> tournament_name r = VStr s).
Proof.
  exists (row_of d tz_name). split; [apply normalize_item_dict |].
  assert (E : tournament_name (row_of d tz_name) =
              match get d "league" with
              | VDict l =>
                  match find truthy (map (get l) league_keys) with
                  | Some v => v
                  | None => VStr ""
                  end
              | league => if truthy league then VStr (py_str league) else VStr ""
              end).
  { unfold row_of. cbn [tournament_name].
    destruct (truthy (get d "league")) eqn:T.
    - rewrite (py_or_truthy _ _ T).
      destruct (get d "league") as [| b | z | f | s | l | l];
        try discriminate T; try (rewrite T; reflexivity).
      rewrite orelse_find. reflexivity.
    - rewrite (py_or_falsy _ _ T).
      destruct (get d "league") as [| b | z | f | s | l | l];
        try (rewrite T; reflexivity); try reflexivity.
      destruct l; [reflexivity | discriminate T]. }
  split; [exact E |].
  intros s Hs. rewrite E, Hs. simpl. destruct s; reflexivity.
Qed.


(** X6.  The type and the status of a record.  event_type_type is
    [str(sport_id)] when sport_id is truthy and the empty string
    otherwise; event_status is the string of the first truthy value among
    time_status and status, and the empty string when neither is truthy.
    A status that is the number 0 is therefore never written as ["0"]: it
    is passed over, while the text ["0"] is kept. *)
Theorem type_and_status_columns (d : list (string * value)) (tz_name : string) :
  exists r,
    normalize_item (VDict d) tz_name = Ok r
    /\ event_type_type r =
       (if truthy (get d "sport_id") then py_str (get d "sport_id") else "")
    /\ event_status r =
       match find truthy (map (get d) status_keys) with
       | Some v => py_str v
       | None => ""
       end
    /\ (get d "time_status" = VInt 0 -> absent d ["status"] -> event_status r = "")
    /\ (get d "time_status" = VStr "0" -> event_status r = "0").
Proof.
  exists (row_of d tz_name). split; [apply normalize_item_dict |].
  unfold row_of. cbn [event_type_type event_status].
  split; [unfold py_or; destruct (truthy (get d "sport_id")); reflexivity |].
  assert (E : py_str (fold_right py_or (VStr "") (map (get d) status_keys))
              = match find truthy (map (get d) status_keys) with
                | Some v => py_str v
                | None => ""
                end).
  { rewrite orelse_find. destruct (find truthy _); reflexivity. }
  rewrite E. split; [reflexivity |]. split.
  - intros H Habs. unfold status_keys. simpl map. simpl find. rewrite H.
    assert (G : get d "status" = VNone)
      by (unfold get; rewrite Habs by (simpl; tauto); reflexivity).
    rewrite G. reflexivity.
  - intros H. unfold status_keys. simpl map. simpl find. rewrite H. reflexivity.
Qed.

End ColumnsFurther.

(** ** The Record Normalizer, batch by batch *)

Section BatchesFurther.
Context {rt : Runtime}.

(** X7.  Normalization goes item by item and keeps the order: the rows of
    two batches put end to end are the rows of the first followed by the
    rows of the second, and the exception of the first batch, if it has
    one, is the exception of the whole.  So the rows of a day do not
    depend on how its records were cut into pages. *)
Theorem normalize_items_app (items1 items2 : list value) (tz_name : string) :
  normalize_items (items1 ++ items2)%list tz_name =
  (rows1 <- normalize_items items1 tz_name ;;
   rows2 <- normalize_items items2 tz_name ;;
   Ok (rows1 ++ rows2)%list).
Proof.
  induction items1 as [| it rest IH]; simpl.
  - destruct (normalize_items items2 tz_name); reflexivity.
  - destruct (normalize_item it tz_name) as [r | e]; simpl; [| reflexivity].
    rewrite IH. destruct (normalize_items rest tz_name) as [rows1 | e]; simpl;
      [| reflexivity].
    destruct (normalize_items items2 tz_name); reflexivity.
Qed.

Lemma normalize_items_strings (items : list string) (tz_name : string) :
  items <> [] -> normalize_items (map VStr items) tz_name = Raise AttributeError.
Proof. destruct items; [contradiction | reflexivity]. Qed.

Lemma code_points_nonempty (s : string) : s <> "" -> code_points s <> [].
Proof.
  destruct s as [| a rest]; [contradiction |]. intros _. simpl.
  destruct (code_points rest); [discriminate |].
  destruct (continues rest); discriminate.
Qed.

(** X8.  What [normalize_result] does with an argument that is no list.
    Any falsy value (null, false, 0, empty text, empty list, empty object)
    gives the empty frame.  An object that is not empty is walked key by
    key and text that is not empty character by character, and the first
    of them raises [AttributeError]; a truthy number or [True] cannot be
    walked and raises [TypeError]. *)
Theorem normalize_result_other_inputs (tz_name : string) :
  (forall v, truthy v = false -> normalize_result v tz_name = Ok [])
  /\ (forall items, normalize_result (VList items) tz_name
                    = normalize_items items tz_name)
  /\ (forall d, d <> [] -> normalize_result (VDict d) tz_name = Raise AttributeError)
  /\ (forall s, s <> "" -> normalize_result (VStr s) tz_name = Raise AttributeError)
  /\ (forall z, z <> 0 -> normalize_result (VInt z) tz_name = Raise TypeError)
  /\ (forall f, float_is_zero f = false ->
        normalize_result (VFloat f) tz_name = Raise TypeError)
  /\ normalize_result (VBool true) tz_name = Raise TypeError.
Proof.
  split; [intros v H; unfold normalize_result; rewrite (py_or_falsy _ _ H); reflexivity |].
  split; [intros items; apply normalize_result_list |].
  split.
  { intros d Hd. destruct d as [| [k x] d]; [contradiction | reflexivity]. }
  split.
  { intros s Hs. unfold normalize_result.
    rewrite py_or_truthy by (destruct s; [contradiction | reflexivity]).
    simpl. apply normalize_items_strings. apply code_points_nonempty. exact Hs. }
  split.
  { intros z Hz. unfold normalize_result.
    rewrite py_or_truthy; [reflexivity |].
    simpl. destruct (z =? 0) eqn:E; [apply Z.eqb_eq in E; contradiction | reflexivity]. }
  split; [| reflexivity].
  intros f Hf. unfold normalize_result.
  rewrite py_or_truthy; [reflexivity |]. simpl. rewrite Hf. reflexivity.
Qed.

End BatchesFurther.

(** ** Deduplication, further *)

Section DeduplicationFurther.

Lemma drop_seen_unique (df : DataFrame) :
  forall seen,
    NoDup (map event_key df) ->
    (forall r, In r df -> existsb (String.eqb (event_key r)) seen = false) ->
    drop_seen seen df = df.
Proof.
  induction df as [| r rest IH]; intros seen Hnd Hseen; [reflexivity |].
  simpl. rewrite (Hseen r) by (left; reflexivity).
  inversion Hnd as [| ? ? Hnotin Hnd']; subst. f_equal. apply IH; [exact Hnd' |].
  intros r' Hr'. rewrite existsb_eqb_cons, (Hseen r') by (right; exact Hr').
  rewrite orb_false_r. apply String.eqb_neq. intros Heq. apply Hnotin.
  rewrite <- Heq. apply in_map. exact Hr'.
Qed.

(** X9.  [drop_duplicates] changes nothing exactly when no event_key
    occurs twice, and applying it a second time changes nothing. *)
Theorem drop_duplicates_fixpoint (df : DataFrame) :
  (drop_duplicates df = df <-> NoDup (map event_key df))
  /\ drop_duplicates (drop_duplicates df) = drop_duplicates df.
Proof.
  assert (F : forall df', NoDup (map event_key df') -> drop_duplicates df' = df').
  { intros df' H. apply drop_seen_unique; [exact H | reflexivity]. }
  split; [split |].
  - intros H. rewrite <- H. apply drop_seen_NoDup.
  - apply F.
  - apply F. apply drop_seen_NoDup.
Qed.

Lemma drop_seen_subseq (df : DataFrame) :
  forall seen, subseq (drop_seen seen df) df.
Proof.
  induction df as [| r rest IH]; intros seen; simpl; [constructor |].
  destruct (existsb (String.eqb (event_key r)) seen); constructor; apply IH.
Qed.

Lemma subseq_length {A : Type} (l1 l2 : list A) :
  subseq l1 l2 -> (List.length l1 <= List.length l2)%nat.
Proof. induction 1; simpl; lia. Qed.

(** X10.  [drop_duplicates] only leaves rows out: the rows it keeps are
    rows of the frame, in the order they had, so there are no more of
    them; and it loses no event_key: the keys of the result are the keys
    of the frame. *)
Theorem drop_duplicates_keeps_order_and_keys (df : DataFrame) :
  subseq (drop_duplicates df) df
  /\ (List.length (drop_duplicates df) <= List.length df)%nat
  /\ (forall k, In k (map event_key (drop_duplicates df)) <-> In k (map event_key df)).
Proof.
  split; [apply drop_seen_subseq |].
  split; [apply subseq_length, drop_seen_subseq |].
  intros k. split.
  - intros H. apply in_map_iff in H as [r [Hk Hr]].
    apply drop_seen_fresh in Hr as [Hr _]. rewrite <- Hk. apply in_map. exact Hr.
  - intros H. apply in_map_iff in H as [r [Hk Hr]].
    destruct (drop_duplicates_keeps_key df r Hr) as [r' [Hr' Hk']].
    rewrite <- Hk, <- Hk'. apply in_map. exact Hr'.
Qed.

End DeduplicationFurther.

(** ** The Day-Paginator, further *)

Section PaginatorFurther.
Context {rt : Runtime}.
Variable upstream : trace -> call -> response.
Variable betsapi_token : string.
Variable sport_id_input : Z.
Variable scope_key : string.

(** One round of the loop. *)
Lemma page_loop_unfold day_param dia page acc errores tr :
  page_loop upstream betsapi_token sport_id_input scope_key
    day_param dia page acc errores tr =
  match iteration upstream betsapi_token sport_id_input scope_key
          day_param dia page acc errores tr with
  | (Break out, tr') => (out, tr')
  | (Continue page' acc', tr') =>
      page_loop upstream betsapi_token sport_id_input scope_key
        day_param dia page' acc' errores tr'
  end.
Proof.
  apply (page_loop_elim upstream betsapi_token sport_id_input scope_key
    (fun day_param dia page acc errores tr res =>
       res = match iteration upstream betsapi_token sport_id_input scope_key
                     day_param dia page acc errores tr with
             | (Break out, tr') => (out, tr')
             | (Continue page' acc', tr') =>
                 page_loop upstream betsapi_token sport_id_input scope_key
                   day_param dia page' acc' errores tr'
             end));
    clear day_param dia page acc errores tr.
  - intros day_param dia page acc errores tr out tr' e _. rewrite e. reflexivity.
  - intros day_param dia page acc errores tr page' acc' tr' H _ _.
    rewrite H. reflexivity.
Qed.

Lemma page_body_raises dia page acc errores r :
  pageable r = false ->
  page_body dia page acc errores r = Break (Raise AttributeError)
  \/ page_body dia page acc errores r = Break (Raise TypeError).
Proof.
  unfold pageable, page_body.
  destruct r as [e | [| b | z | f | s | l | p]]; try discriminate;
    try (intros _; left; reflexivity).
  destruct (py_ne_int (get p "success") 1); [discriminate |]. simpl.
  destruct (truthy (results_of p)); [| discriminate]. simpl.
  destruct (results_of p); simpl; try discriminate; intros _; right; reflexivity.
Qed.

(** Where the loop of a day stops: at the first answer that is not a page
    with results below the ceiling; and it raises when that answer cannot
    be gone through. *)
Lemma page_loop_stops day_param dia page acc errores tr :
  exists front last,
    snd (page_loop upstream betsapi_token sport_id_input scope_key
           day_param dia page acc errores tr) = (tr ++ front ++ [last])%list
    /\ Forall (fun ev => pageable (snd ev) = true
                         /\ more_pages (Fetch.page (fst ev)) (snd ev) = true) front
    /\ (pageable (snd last) = true ->
        more_pages (Fetch.page (fst last)) (snd last) = false)
    /\ (pageable (snd last) = false ->
        exists e,
          fst (page_loop upstream betsapi_token sport_id_input scope_key
                 day_param dia page acc errores tr) = Raise e
          /\ (e = AttributeError \/ e = TypeError)).
Proof.
  apply (page_loop_elim upstream betsapi_token sport_id_input scope_key
    (fun day_param dia page acc errores tr res =>
       exists front last,
         snd res = (tr ++ front ++ [last])%list
         /\ Forall (fun ev => pageable (snd ev) = true
                              /\ more_pages (Fetch.page (fst ev)) (snd ev) = true) front
         /\ (pageable (snd last) = true ->
             more_pages (Fetch.page (fst last)) (snd last) = false)
         /\ (pageable (snd last) = false ->
             exists e, fst res = Raise e /\ (e = AttributeError \/ e = TypeError))));
    clear day_param dia page acc errores tr.
  - intros day_param dia page acc errores tr out tr' e _.
    unfold iteration, fetch_api_day in e. injection e as Hout Htr.
    set (c := request (strip betsapi_token) day_param sport_id_input scope_key page) in *.
    exists [], (c, upstream tr c). simpl.
    split; [symmetry; exact Htr |]. split; [constructor |]. split.
    + intros Hp. rewrite (page_body_pageable _ _ _ _ _ Hp) in Hout.
      destruct (more_pages page (upstream tr c)); [discriminate | reflexivity].
    + intros Hp. destruct (page_body_raises dia page acc errores _ Hp) as [H | H];
        rewrite H in Hout; injection Hout as <-; eauto.
  - intros day_param dia page acc errores tr page' acc' tr' H IH _.
    unfold iteration, fetch_api_day in H. injection H as Hstep Htr.
    set (c := request (strip betsapi_token) day_param sport_id_input scope_key page) in *.
    destruct IH as [front [last [Hsnd [Hfront [Hlast Hraise]]]]].
    exists ((c, upstream tr c) :: front), last.
    split; [rewrite Hsnd, <- Htr, <- app_assoc; reflexivity |].
    split; [| split; assumption].
    constructor; [| exact Hfront]. simpl.
    destruct (pageable (upstream tr c)) eqn:Hp.
    + split; [reflexivity |].
      rewrite (page_body_pageable _ _ _ _ _ Hp) in Hstep.
      destruct (more_pages page (upstream tr c)); [reflexivity | discriminate].
    + destruct (page_body_raises dia page acc errores _ Hp) as [H | H];
        rewrite H in Hstep; discriminate.
Qed.

(** X11.  No request of a day is tried again and none follows a page
    without results.  The requests of a day split into a front and a last
    one; every answer in the front has the success flag 1 and truthy
    results and came for a page below the ceiling, so none of them is a
    failed request, a success flag other than 1 or an empty page, and
    none of them adds an error entry. *)
Theorem day_stops_at_first_break day_param dia errores tr :
  exists front last,
    snd (page_loop upstream betsapi_token sport_id_input scope_key
           day_param dia 1 [] errores tr) = (tr ++ front ++ [last])%list
    /\ Forall (fun ev => more_pages (Fetch.page (fst ev)) (snd ev) = true) front
    /\ Forall (fun ev => is_failure (snd ev) = false /\ empty_page (snd ev) = false
                         /\ entries_of dia (Fetch.page (fst ev)) (snd ev) = []) front
    /\ (more_pages (Fetch.page (fst last)) (snd last) = false
        \/ pageable (snd last) = false).
Proof.
  destruct (page_loop_stops day_param dia 1 [] errores tr)
    as [front [last [Hsnd [Hfront [Hlast _]]]]].
  exists front, last. split; [exact Hsnd |].
  split; [eapply Forall_impl; [| exact Hfront]; intros ev [_ H]; exact H |].
  split.
  - eapply Forall_impl; [| exact Hfront]. intros [c r] [_ H]. simpl in *.
    split; [| split].
    + destruct r; [discriminate | reflexivity].
    + unfold more_pages in H. unfold empty_page.
      destruct r as [e | [| b | z | f | s | l | p]]; try reflexivity.
      destruct (py_ne_int (get p "success") 1); [discriminate |].
      destruct (truthy (results_of p)); [reflexivity | discriminate].
    + apply more_pages_no_entry. exact H.
  - destruct (pageable (snd last)) eqn:Hp; [left; apply Hlast; reflexivity | right; reflexivity].
Qed.

End PaginatorFurther.


(** ** The Range Orchestrator, further *)

Section OrchestratorFurther.
Context {rt : Runtime}.
Variable upstream : trace -> call -> response.
Variable betsapi_token : string.
Variable sport_id_input : Z.
Variable scope_key : string.
Variable fecha_desde fecha_hasta : date.
Variable timezone : string.

Lemma forallb_Forall {A : Type} (p : A -> bool) (l : list A) :
  forallb p l = true -> Forall (fun x => p x = true) l.
Proof. intros H. apply Forall_forall. apply forallb_forall. exact H. Qed.

Lemma day_body_unfold (i : Z) (dfs : list DataFrame) (errores : list string)
    (tr : trace) :
  match page_loop upstream betsapi_token sport_id_input scope_key
          (day_param fecha_desde i) (dia_str_display fecha_desde i) 1 [] errores tr with
  | (Raise e, tr) => (Raise e, tr)
  | (Ok (acumulados_dia, errores), tr) =>
      match acumulados_dia with
      | [] => (Ok (dfs, errores), tr)
      | _ :: _ =>
          match normalize_result (VList acumulados_dia) (strip timezone) with
          | Raise e => (Raise e, tr)
          | Ok df_dia =>
              (Ok (if negb (empty df_dia) then (dfs ++ [df_dia])%list else dfs,
                   errores), tr)
          end
      end
  end
  = day_body upstream betsapi_token sport_id_input scope_key fecha_desde timezone
      i dfs errores tr.
Proof. reflexivity. Qed.

(** One day, whatever the endpoint answers: the day's frame and error
    entries when the answers are well shaped, an exception otherwise. *)
Lemma day_body_outcome (i : Z) (dfs : list DataFrame) (errores : list string)
    (tr : trace) :
  exists seg,
    snd (day_body upstream betsapi_token sport_id_input scope_key fecha_desde
           timezone i dfs errores tr) = (tr ++ seg)%list
    /\ answered upstream tr seg
    /\ day_requests betsapi_token sport_id_input scope_key
         (day_param fecha_desde i) 1 seg
    /\ Forall (fun ev => more_pages (Fetch.page (fst ev)) (snd ev) = true)
         (removelast seg)
    /\ (all_well_shaped seg = true ->
        fst (day_body upstream betsapi_token sport_id_input scope_key fecha_desde
               timezone i dfs errores tr)
        = Ok ((dfs ++ frame_of seg (strip timezone))%list,
              (errores ++ entries_in (dia_str_display fecha_desde i) seg)%list))
    /\ (all_well_shaped seg = false ->
        exists e,
          fst (day_body upstream betsapi_token sport_id_input scope_key fecha_desde
                 timezone i dfs errores tr) = Raise e
          /\ (e = AttributeError \/ e = TypeError)).
Proof.
  rewrite <- day_body_unfold.
  destruct (page_loop_run upstream betsapi_token sport_id_input scope_key
              (day_param fecha_desde i) (dia_str_display fecha_desde i) 1 [] errores tr)
    as [seg [Hsnd [Hans [Hreq [Hok _]]]]].
  destruct (page_loop_stops upstream betsapi_token sport_id_input scope_key
              (day_param fecha_desde i) (dia_str_display fecha_desde i) 1 [] errores tr)
    as [front [last [Hsnd' [Hfront [_ Hraise]]]]].
  assert (Hseg : seg = (front ++ [last])%list).
  { rewrite Hsnd in Hsnd'. apply app_inv_head in Hsnd'. exact Hsnd'. }
  destruct (page_loop upstream betsapi_token sport_id_input scope_key
              (day_param fecha_desde i) (dia_str_display fecha_desde i) 1 [] errores tr)
    as [out tr'].
  simpl in Hsnd, Hok, Hraise. subst tr'.
  assert (Hmore : Forall (fun ev => more_pages (Fetch.page (fst ev)) (snd ev) = true)
                    (removelast seg)).
  { rewrite Hseg, removelast_last. eapply Forall_impl; [| exact Hfront].
    intros ev [_ H]. exact H. }
  exists seg.
  destruct (forallb (fun ev => pageable (snd ev)) seg) eqn:Hp.
  - (* the loop of the day returns *)
    rewrite (Hok (forallb_Forall _ _ Hp)). cbv beta iota.
    destruct (forallb is_dict (records_in seg)) eqn:Hd.
    + assert (Hws : all_well_shaped seg = true).
      { unfold all_well_shaped, well_shaped. apply forallb_forall. intros ev Hev.
        rewrite forallb_forall in Hp. rewrite (Hp ev Hev). simpl.
        unfold records_in in Hd. rewrite forallb_forall in Hd.
        apply forallb_forall. intros x Hx. apply Hd. apply in_flat_map. eauto. }
      unfold frame_of. revert Hd.
      destruct (records_in seg) as [| it rest]; intros Hd.
      * cbn [fst snd]. rewrite app_nil_r.
        do 4 (split; [first [assumption | reflexivity] |]). split; [reflexivity |].
        intros H. rewrite Hws in H. discriminate.
      * rewrite normalize_result_list, (normalize_items_rows _ _ Hd).
        simpl in Hd. apply andb_prop in Hd as [Hit _].
        destruct it; try discriminate. simpl.
        do 4 (split; [first [assumption | reflexivity] |]). split; [reflexivity |].
        intros H. rewrite Hws in H. discriminate.
    + assert (Hws : all_well_shaped seg = false).
      { unfold all_well_shaped, well_shaped.
        destruct (forallb (fun ev => pageable (snd ev) && forallb is_dict (records_of (snd ev)))
                    seg) eqn:W; [| reflexivity].
        exfalso. rewrite forallb_forall in W.
        assert (Hall : forallb is_dict (records_in seg) = true).
        { apply forallb_flat_map. apply Forall_forall. intros ev Hev.
          specialize (W ev Hev). apply andb_prop in W as [_ W]. exact W. }
        rewrite Hall in Hd. discriminate. }
      revert Hd. destruct (records_in seg) as [| it rest]; intros Hd;
        [discriminate |].
      rewrite normalize_result_list.
      pose proof (normalize_items_objects (it :: rest) (strip timezone)) as Hn.
      rewrite Hd in Hn. rewrite Hn. cbn [fst snd].
      do 4 (split; [first [assumption | reflexivity] |]). split.
      * intros H. rewrite Hws in H. discriminate.
      * intros _. eauto.
  - (* the loop of the day raises *)
    assert (Hlast : pageable (snd last) = false).
    { rewrite Hseg, forallb_app in Hp. simpl in Hp.
      assert (Hf : forallb (fun ev => pageable (snd ev)) front = true).
      { apply forallb_forall. intros ev Hev.
        rewrite Forall_forall in Hfront. apply (Hfront ev Hev). }
      rewrite Hf, andb_true_r in Hp. exact Hp. }
    destruct (Hraise Hlast) as [e [-> He]]. cbn [fst snd].
    assert (Hws : all_well_shaped seg = false).
    { unfold all_well_shaped, well_shaped.
      destruct (forallb (fun ev => pageable (snd ev) && forallb is_dict (records_of (snd ev)))
                  seg) eqn:W; [| reflexivity].
      exfalso. rewrite forallb_forall in W.
      assert (Hall : forallb (fun ev => pageable (snd ev)) seg = true).
      { apply forallb_forall. intros ev Hev. specialize (W ev Hev).
        apply andb_prop in W as [W _]. exact W. }
      rewrite Hall in Hp. discriminate. }
    do 4 (split; [first [assumption | reflexivity] |]). split.
    + intros H. rewrite Hws in H. discriminate.
    + intros _. eauto.
Qed.

(** The days one after the other, whatever the endpoint answers: the runs
    of the days requested, up to the first whose answers are not well
    shaped. *)
Lemma day_loop_outcome (days : list Z) :
  forall dfs errores tr,
  exists segs,
    snd (day_loop upstream betsapi_token sport_id_input scope_key fecha_desde
           timezone days dfs errores tr) = (tr ++ List.concat segs)%list
    /\ answered upstream tr (List.concat segs)
    /\ range_requests betsapi_token sport_id_input scope_key fecha_desde
         (firstn (List.length segs) days) segs
    /\ Forall (fun seg =>
                 Forall (fun ev => more_pages (Fetch.page (fst ev)) (snd ev) = true)
                   (removelast seg)) segs
    /\ (forallb all_well_shaped segs = true ->
        List.length segs = List.length days
        /\ fst (day_loop upstream betsapi_token sport_id_input scope_key fecha_desde
                  timezone days dfs errores tr)
           = Ok ((dfs ++ range_frames timezone segs)%list,
                 (errores ++ range_entries fecha_desde days segs)%list))
    /\ (forallb all_well_shaped segs = false ->
        forallb all_well_shaped (removelast segs) = true
        /\ exists e,
             fst (day_loop upstream betsapi_token sport_id_input scope_key fecha_desde
                    timezone days dfs errores tr) = Raise e
             /\ (e = AttributeError \/ e = TypeError)).
Proof.
  induction days as [| i days IH]; intros dfs errores tr.
  - exists []. simpl. rewrite !app_nil_r.
    split; [reflexivity |]. split; [constructor |]. split; [constructor |].
    split; [constructor |]. split; [intros _; split; reflexivity | discriminate].
  - destruct (day_body_outcome i dfs errores tr)
      as [seg [Hsnd [Hans [Hreq [Hmore [Hok Hbad]]]]]].
    simpl day_loop.
    destruct (day_body upstream betsapi_token sport_id_input scope_key fecha_desde
                timezone i dfs errores tr) as [out tr'].
    simpl in Hsnd, Hok, Hbad. subst tr'.
    destruct (all_well_shaped seg) eqn:Hws.
    + rewrite (Hok eq_refl) in *.
      destruct (IH (dfs ++ frame_of seg (strip timezone))%list
                   (errores ++ entries_in (dia_str_display fecha_desde i) seg)%list
                   (tr ++ seg)%list)
        as [segs [Hsnd' [Hans' [Hreqs [Hmores [Hok' Hbad']]]]]].
      exists (seg :: segs). simpl List.concat. simpl forallb. rewrite Hws. simpl andb.
      split; [rewrite Hsnd', app_assoc; reflexivity |].
      split; [apply answered_app; assumption |].
      split; [simpl; constructor; assumption |].
      split; [constructor; assumption |].
      split.
      * intros H. destruct (Hok' H) as [Hlen Hfst]. split; [simpl; congruence |].
        rewrite Hfst. unfold range_frames, range_entries. simpl.
        rewrite <- !app_assoc. reflexivity.
      * intros H. destruct (Hbad' H) as [Hfront He]. split; [| exact He].
        destruct segs as [| seg' segs']; [discriminate |].
        change (removelast (seg :: seg' :: segs'))
          with (seg :: removelast (seg' :: segs')).
        simpl forallb. rewrite Hws. exact Hfront.
    + destruct (Hbad eq_refl) as [e [-> He]].
      exists [seg]. simpl. rewrite Hws, app_nil_r.
      split; [reflexivity |]. split; [assumption |].
      split; [constructor; [assumption | constructor] |].
      split; [constructor; [assumption | constructor] |].
      split; [discriminate |]. intros _. split; [reflexivity | eauto].
Qed.

Lemma in_firstn {A : Type} (x : A) (n : nat) (l : list A) :
  In x (firstn n l) -> In x l.
Proof.
  revert l. induction n as [| n IH]; intros [| y l] H; simpl in *; try contradiction.
  destruct H as [H | H]; [left; exact H | right; apply IH; exact H].
Qed.

Lemma in_range_bounds (i total : Z) : In i (range total) -> 0 <= i < total.
Proof.
  unfold range. intros H. apply in_map_iff in H as [k [<- Hk]].
  apply in_seq in Hk. lia.
Qed.

Lemma ceiling_positive : 1 <= MAX_PAGES_PER_DAY.
Proof. discriminate. Qed.

(** The requests of a day are requests for pages 1 to the ceiling. *)
Lemma day_requests_budget (day : string) (seg : list (call * response)) :
  day_requests betsapi_token sport_id_input scope_key day 1 seg ->
  Z.of_nat (List.length seg) <= MAX_PAGES_PER_DAY
  /\ Forall (fun ev =>
               exists p, 1 <= p <= MAX_PAGES_PER_DAY
                         /\ fst ev = request (strip betsapi_token) day
                                       sport_id_input scope_key p) seg.
Proof.
  intros [Hmap [_ Hlen]]. specialize (Hlen ceiling_positive).
  split; [lia |]. apply Forall_forall. intros ev Hev.
  apply (in_map fst) in Hev. rewrite Hmap in Hev.
  apply in_map_iff in Hev as [p [Hp Hin]]. unfold pages_from in Hin.
  apply in_map_iff in Hin as [k [<- Hk]]. apply in_seq in Hk.
  exists (1 + Z.of_nat k). split; [lia | symmetry; exact Hp].
Qed.

Lemma range_requests_budget (days : list Z) (segs : list (list (call * response))) :
  range_requests betsapi_token sport_id_input scope_key fecha_desde days segs ->
  Z.of_nat (List.length (List.concat segs))
    <= MAX_PAGES_PER_DAY * Z.of_nat (List.length days)
  /\ Forall (fun ev =>
               exists i p, In i days /\ 1 <= p <= MAX_PAGES_PER_DAY
                           /\ fst ev = request (strip betsapi_token)
                                         (day_param fecha_desde i)
                                         sport_id_input scope_key p)
       (List.concat segs).
Proof.
  induction 1 as [| i seg days segs Hday _ [IHlen IHall]].
  - split; [simpl; lia | constructor].
  - destruct (day_requests_budget _ _ Hday) as [Hlen Hall].
    change (List.concat (seg :: segs)) with (seg ++ List.concat segs)%list.
    change (List.length (i :: days)) with (S (List.length days)).
    split; [rewrite length_app; nia |].
    apply Forall_app. split.
    + eapply Forall_impl; [| exact Hall]. intros ev [p [Hp Hev]].
      exists i, p. split; [left; reflexivity | split; assumption].
    + eapply Forall_impl; [| exact IHall]. intros ev [j [p [Hj H]]].
      exists j, p. split; [right; exact Hj | exact H].
Qed.

(** A frame a day adds is not empty when the day's answers are well
    shaped. *)
Lemma frame_of_not_empty (seg : list (call * response)) (tz_name : string) :
  all_well_shaped seg = true ->
  Forall (fun df => df <> []) (frame_of seg tz_name).
Proof.
  intros Hws. unfold frame_of.
  assert (Hd : forallb is_dict (records_in seg) = true).
  { apply forallb_flat_map. apply forallb_Forall in Hws.
    eapply Forall_impl; [| exact Hws]. intros ev H.
    apply andb_prop in H as [_ H]. exact H. }
  destruct (records_in seg) as [| it rest]; [constructor |].
  constructor; [| constructor].
  simpl in Hd. apply andb_prop in Hd as [Hit _].
  destruct it; discriminate.
Qed.

Lemma all_well_shaped_concat (segs : list (list (call * response))) :
  all_well_shaped (List.concat segs) = forallb all_well_shaped segs.
Proof.
  unfold all_well_shaped. induction segs as [| seg segs IH]; [reflexivity |].
  simpl. rewrite forallb_app, IH. reflexivity.
Qed.

(** What the fetch does once the token and the range are accepted,
    whatever the endpoint answers. *)
Lemma do_fetch_outcome (tr : trace) :
  strip betsapi_token <> "" ->
  fecha_desde <= fecha_hasta ->
  exists segs,
    snd (do_fetch upstream betsapi_token sport_id_input scope_key fecha_desde
           fecha_hasta timezone tr) = (tr ++ List.concat segs)%list
    /\ answered upstream tr (List.concat segs)
    /\ range_requests betsapi_token sport_id_input scope_key fecha_desde
         (firstn (List.length segs) (range (fecha_hasta - fecha_desde + 1))) segs
    /\ Forall (fun seg =>
                 Forall (fun ev => more_pages (Fetch.page (fst ev)) (snd ev) = true)
                   (removelast seg)) segs
    /\ (forallb all_well_shaped segs = true ->
        List.length segs = Z.to_nat (fecha_hasta - fecha_desde + 1)
        /\ fst (do_fetch upstream betsapi_token sport_id_input scope_key fecha_desde
                  fecha_hasta timezone tr)
           = match range_frames timezone segs with
             | [] =>
                 NoMatches
                   (range_entries fecha_desde (range (fecha_hasta - fecha_desde + 1)) segs)
             | _ :: _ =>
                 Fetched
                   (drop_duplicates (List.concat (range_frames timezone segs)))
                   (range_entries fecha_desde (range (fecha_hasta - fecha_desde + 1)) segs)
             end)
    /\ (forallb all_well_shaped segs = false ->
        forallb all_well_shaped (removelast segs) = true
        /\ exists e,
             fst (do_fetch upstream betsapi_token sport_id_input scope_key fecha_desde
                    fecha_hasta timezone tr) = GeneralError e
             /\ (e = AttributeError \/ e = TypeError)).
Proof.
  intros Htoken Hrange.
  destruct (day_loop_outcome (range (fecha_hasta - fecha_desde + 1)) [] [] tr)
    as [segs [Hsnd [Hans [Hreq [Hmore [Hok Hbad]]]]]].
  exists segs. unfold do_fetch.
  destruct (strip betsapi_token =? "")%string eqn:E;
    [apply String.eqb_eq in E; contradiction |].
  replace (fecha_hasta <? fecha_desde) with false
    by (symmetry; apply Z.ltb_ge; exact Hrange).
  cbv zeta.
  destruct (day_loop upstream betsapi_token sport_id_input scope_key fecha_desde
              timezone (range (fecha_hasta - fecha_desde + 1)) [] [] tr) as [out tr'].
  simpl in Hsnd, Hok, Hbad. subst tr'.
  destruct (forallb all_well_shaped segs) eqn:Hws.
  - destruct (Hok eq_refl) as [Hlen ->]. clear Hok Hbad.
    assert (Hdays : List.length segs = Z.to_nat (fecha_hasta - fecha_desde + 1)).
    { rewrite Hlen. unfold range. rewrite length_map, length_seq. reflexivity. }
    simpl app.
    destruct (range_frames timezone segs) as [| df0 dfs0]; cbn [fst snd].
    + split; [reflexivity |]. do 3 (split; [assumption |]).
      split; [| discriminate]. intros _. split; [exact Hdays | reflexivity].
    + rewrite drop_duplicates_when_keyed.
      split; [reflexivity |]. do 3 (split; [assumption |]).
      split; [| discriminate]. intros _. split; [exact Hdays | reflexivity].
  - destruct (Hbad eq_refl) as [Hfront [e [-> He]]]. cbn [fst snd].
    split; [reflexivity |]. do 3 (split; [assumption |]).
    split; [discriminate |]. intros _. split; [exact Hfront |].
    exists e. split; [reflexivity | exact He].
Qed.

(** X12.  The fetch never sends more than [MAX_PAGES_PER_DAY] requests
    per day of the range, whatever the endpoint answers and however the
    fetch ends: the requests it adds to the trace are answered one after
    the other, there are at most [MAX_PAGES_PER_DAY] times the number of
    days of them, and each asks for a page between 1 and the ceiling of a
    day of the range, with the stripped token, the sport and the scope of
    the form. *)
Theorem fetch_request_budget (tr : trace) :
  exists evs,
    snd (do_fetch upstream betsapi_token sport_id_input scope_key fecha_desde
           fecha_hasta timezone tr) = (tr ++ evs)%list
    /\ answered upstream tr evs
    /\ Z.of_nat (List.length evs)
         <= MAX_PAGES_PER_DAY * Z.max 0 (fecha_hasta - fecha_desde + 1)
    /\ Forall (fun ev =>
                 exists i p,
                   0 <= i <= fecha_hasta - fecha_desde
                   /\ 1 <= p <= MAX_PAGES_PER_DAY
                   /\ fst ev = request (strip betsapi_token) (day_param fecha_desde i)
                                 sport_id_input scope_key p) evs.
Proof.
  pose proof ceiling_positive as Hc.
  match goal with
  | |- ?G =>
      assert (Hnone : snd (do_fetch upstream betsapi_token sport_id_input scope_key
                             fecha_desde fecha_hasta timezone tr) = tr -> G)
  end.
  { intros H. exists []. rewrite app_nil_r.
    split; [exact H |]. split; [constructor |]. split; [| constructor].
    change (Z.of_nat (List.length (@nil (call * response)))) with 0. nia. }
  destruct (strip betsapi_token =? "")%string eqn:Htoken.
  { apply Hnone. unfold do_fetch. rewrite Htoken. reflexivity. }
  apply String.eqb_neq in Htoken.
  destruct (fecha_hasta <? fecha_desde) eqn:Hrange.
  { apply Hnone. unfold do_fetch. rewrite Hrange.
    destruct (strip betsapi_token =? "")%string; reflexivity. }
  apply Z.ltb_ge in Hrange. clear Hnone.
  destruct (do_fetch_outcome tr Htoken Hrange)
    as [segs [Hsnd [Hans [Hreq [_ _]]]]].
  exists (List.concat segs). split; [exact Hsnd |]. split; [exact Hans |].
  destruct (range_requests_budget _ _ Hreq) as [Hlen Hall].
  split.
  - rewrite length_firstn in Hlen. unfold range in Hlen.
    rewrite length_map, length_seq in Hlen. nia.
  - eapply Forall_impl; [| exact Hall]. intros ev [i [p [Hi H]]].
    exists i, p. split; [| exact H].
    apply in_firstn, in_range_bounds in Hi. lia.
Qed.

(** X13.  One malformed answer costs the whole range.  With a token and a
    range in order, the fetch ends in the general error exactly when one
    of the answers it received is not well shaped (not an object, results
    that cannot be iterated, a record that is not an object).  Then the
    exception is an [AttributeError] or a [TypeError], the malformed
    answer came on the last day requested, the days after it are not
    requested, and the outcome carries none of the rows of the days
    before, all of whose answers were well shaped. *)
Theorem malformed_answer_aborts_range (tr : trace) :
  strip betsapi_token <> "" ->
  fecha_desde <= fecha_hasta ->
  exists segs,
    snd (do_fetch upstream betsapi_token sport_id_input scope_key fecha_desde
           fecha_hasta timezone tr) = (tr ++ List.concat segs)%list
    /\ range_requests betsapi_token sport_id_input scope_key fecha_desde
         (firstn (List.length segs) (range (fecha_hasta - fecha_desde + 1))) segs
    /\ ((exists e,
           fst (do_fetch upstream betsapi_token sport_id_input scope_key fecha_desde
                  fecha_hasta timezone tr) = GeneralError e)
        <-> all_well_shaped (List.concat segs) = false)
    /\ (all_well_shaped (List.concat segs) = false ->
        all_well_shaped (List.concat (removelast segs)) = true
        /\ (fst (do_fetch upstream betsapi_token sport_id_input scope_key fecha_desde
                   fecha_hasta timezone tr) = GeneralError AttributeError
            \/ fst (do_fetch upstream betsapi_token sport_id_input scope_key
                      fecha_desde fecha_hasta timezone tr) = GeneralError TypeError)).
Proof.
  intros Htoken Hrange.
  destruct (do_fetch_outcome tr Htoken Hrange)
    as [segs [Hsnd [_ [Hreq [_ [Hok Hbad]]]]]].
  exists segs. split; [exact Hsnd |]. split; [exact Hreq |].
  rewrite !all_well_shaped_concat.
  destruct (forallb all_well_shaped segs) eqn:Hws.
  - destruct (Hok eq_refl) as [_ Hfst]. split; [| discriminate].
    split; [| discriminate]. intros [e He]. rewrite Hfst in He.
    destruct (range_frames timezone segs); discriminate.
  - destruct (Hbad eq_refl) as [Hfront [e [Hfst He]]].
    split; [split; [reflexivity | eauto] |].
    intros _. split; [exact Hfront |].
    destruct He as [-> | ->]; [left | right]; exact Hfst.
Qed.

Lemma barren_answer (r : response) :
  barren r = true ->
  well_shaped r = true /\ records_of r = []
  /\ forall p, more_pages p r = false.
Proof.
  unfold barren, well_shaped, pageable, records_of, more_pages.
  destruct r as [e | [| b | z | f | s | l | p]]; try discriminate.
  - intros _. repeat split.
  - destruct (py_ne_int (get p "success") 1); simpl.
    + intros _. repeat split.
    + destruct (truthy (results_of p)) eqn:T; [discriminate |]. intros _.
      simpl. destruct (py_iter (results_of p)) as [items | e] eqn:I.
      * rewrite (falsy_iter _ _ T I). repeat split.
      * repeat split.
Qed.

(** Days of one request: the requests and the error entries. *)
Lemma single_request_days (days : list Z) (segs : list (list (call * response))) :
  range_requests betsapi_token sport_id_input scope_key fecha_desde days segs ->
  Forall (fun seg => removelast seg = []) segs ->
  map fst (List.concat segs)
  = map (fun i => request (strip betsapi_token) (day_param fecha_desde i)
                    sport_id_input scope_key 1) days
  /\ range_entries fecha_desde days segs
     = flat_map (fun '(i, r) => entries_of (dia_str_display fecha_desde i) 1 r)
         (combine days (map snd (List.concat segs))).
Proof.
  induction 1 as [| i seg days segs Hday _ IH]; intros Hone.
  - split; reflexivity.
  - inversion Hone as [| ? ? Hseg Hrest]; subst.
    destruct (IH Hrest) as [IHmap IHent].
    destruct Hday as [Hmap [Hlen _]].
    destruct seg as [| ev [| ev' rest]]; [simpl in Hlen; lia | | discriminate].
    simpl in Hmap. injection Hmap as Hev.
    unfold range_entries in *. simpl. rewrite IHmap, IHent, app_nil_r.
    split; [rewrite Hev; reflexivity |].
    rewrite Hev. reflexivity.
Qed.

(** X14.  A range on which the endpoint has nothing costs one request per
    day.  Let every answer be a failed request, a success flag other than
    1, or falsy results, and let the token be there and the range in
    order.  Then the fetch asks for page 1 of every day of the range, in
    order, and for nothing else, and ends reporting that no matches were
    found, with the error entries of the answers: one for each failed
    request and each success flag other than 1. *)
Theorem barren_range_one_request_a_day (tr : trace) :
  strip betsapi_token <> "" ->
  fecha_desde <= fecha_hasta ->
  (forall tr c, barren (upstream tr c) = true) ->
  exists evs,
    map fst evs
    = map (fun i => request (strip betsapi_token) (day_param fecha_desde i)
                      sport_id_input scope_key 1)
        (range (fecha_hasta - fecha_desde + 1))
    /\ answered upstream tr evs
    /\ do_fetch upstream betsapi_token sport_id_input scope_key fecha_desde
         fecha_hasta timezone tr
       = (NoMatches
            (flat_map (fun '(i, r) => entries_of (dia_str_display fecha_desde i) 1 r)
               (combine (range (fecha_hasta - fecha_desde + 1)) (map snd evs))),
          (tr ++ evs)%list).
Proof.
  intros Htoken Hrange Hbarren.
  destruct (do_fetch_outcome tr Htoken Hrange)
    as [segs [Hsnd [Hans [Hreq [Hmore [Hok _]]]]]].
  pose proof (answered_all upstream (fun r => barren r = true) Hbarren tr _ Hans)
    as Hall.
  assert (Hin : forall seg ev, In seg segs -> In ev seg -> barren (snd ev) = true).
  { intros seg ev Hseg Hev. rewrite Forall_forall in Hall. apply Hall.
    apply in_concat. exists seg. split; assumption. }
  assert (Hws : forallb all_well_shaped segs = true).
  { apply forallb_forall. intros seg Hseg. apply forallb_forall. intros ev Hev.
    apply (barren_answer _ (Hin seg ev Hseg Hev)). }
  destruct (Hok Hws) as [Hlen Hfst].
  assert (Hdays : firstn (List.length segs) (range (fecha_hasta - fecha_desde + 1))
                  = range (fecha_hasta - fecha_desde + 1)).
  { apply firstn_all2. rewrite Hlen. unfold range.
    rewrite length_map, length_seq. lia. }
  rewrite Hdays in Hreq.
  assert (Hone : Forall (fun seg => removelast seg = []) segs).
  { apply Forall_forall. intros seg Hseg. rewrite Forall_forall in Hmore.
    specialize (Hmore seg Hseg).
    destruct (removelast seg) as [| ev rest] eqn:R; [reflexivity |].
    exfalso. inversion Hmore as [| ? ? Hev _]; subst.
    assert (Hev' : In ev seg).
    { destruct seg as [| x seg']; [discriminate |].
      rewrite (app_removelast_last x (l := x :: seg')) by discriminate.
      rewrite R. left. reflexivity. }
    destruct (barren_answer _ (Hin seg ev Hseg Hev')) as [_ [_ Hno]].
    rewrite Hno in Hev. discriminate. }
  destruct (single_request_days _ _ Hreq Hone) as [Hmap Hent].
  assert (Hframes : range_frames timezone segs = []).
  { unfold range_frames. clear - Hin.
    induction segs as [| seg segs IH]; [reflexivity |]. simpl.
    rewrite IH by (intros s ev Hs; apply Hin; right; exact Hs).
    unfold frame_of.
    assert (R : records_in seg = []).
    { unfold records_in. assert (H : forall ev, In ev seg -> barren (snd ev) = true)
        by (intros ev; apply Hin; left; reflexivity).
      clear - H. induction seg as [| ev seg IH]; [reflexivity |]. simpl.
      rewrite IH by (intros x Hx; apply H; right; exact Hx).
      destruct (barren_answer _ (H ev (or_introl eq_refl))) as [_ [-> _]].
      reflexivity. }
    rewrite R. reflexivity. }
  exists (List.concat segs). split; [exact Hmap |]. split; [exact Hans |].
  rewrite Hframes, Hent in Hfst.
  destruct (do_fetch upstream betsapi_token sport_id_input scope_key fecha_desde
              fecha_hasta timezone tr) as [o tr'].
  simpl in Hsnd, Hfst. subst. reflexivity.
Qed.

(** A fetch that reports rows has some. *)
Lemma fetched_rows_exist (tr : trace) (df : DataFrame) (errores : list string) :
  fst (do_fetch upstream betsapi_token sport_id_input scope_key fecha_desde
         fecha_hasta timezone tr) = Fetched df errores ->
  df <> [].
Proof.
  destruct (strip betsapi_token =? "")%string eqn:Htoken.
  { unfold do_fetch. rewrite Htoken. discriminate. }
  destruct (fecha_hasta <? fecha_desde) eqn:Hrange.
  { unfold do_fetch. rewrite Htoken, Hrange. discriminate. }
  apply String.eqb_neq in Htoken. apply Z.ltb_ge in Hrange.
  destruct (do_fetch_outcome tr Htoken Hrange)
    as [segs [_ [_ [_ [_ [Hok Hbad]]]]]].
  destruct (forallb all_well_shaped segs) eqn:Hws.
  - destruct (Hok eq_refl) as [_ ->].
    assert (Hframes : Forall (fun df => df <> []) (range_frames timezone segs)).
    { unfold range_frames. rewrite forallb_forall in Hws. clear - Hws.
      induction segs as [| seg segs IH]; [constructor |]. simpl.
      apply Forall_app. split.
      - apply frame_of_not_empty. apply Hws. left. reflexivity.
      - apply IH. intros s Hs. apply Hws. right. exact Hs. }
    destruct (range_frames timezone segs) as [| df0 dfs0]; [discriminate |].
    intros H. injection H as <- _.
    inversion Hframes as [| ? ? Hdf0 _]; subst.
    destruct df0 as [| r df0]; [contradiction |]. discriminate.
  - destruct (Hbad eq_refl) as [_ [e [-> _]]]. discriminate.
Qed.

Lemma prefix_append (a b : string) : prefix a (a ++ b) = true.
Proof.
  induction a as [| c a IH]; [destruct b; reflexivity |]. simpl.
  destruct (ascii_dec c c); [exact IH | contradiction].
Qed.

(** An answer adds at most one error entry, and the entry starts with the
    date of its day. *)
Lemma entries_of_one (dia : string) (p : Z) (r : response) :
  (List.length (entries_of dia p r) <= 1)%nat
  /\ Forall (fun e => prefix dia e = true) (entries_of dia p r).
Proof.
  unfold entries_of.
  destruct r as [e | [| b | z | f | s | l | d]];
    try solve [split; [simpl; lia | constructor]].
  - split; [simpl; lia |]. constructor; [apply prefix_append | constructor].
  - destruct (py_ne_int (get d "success") 1).
    + split; [simpl; lia |]. constructor; [apply prefix_append | constructor].
    + destruct (truthy (results_of d) && (p + 1 >? MAX_PAGES_PER_DAY)).
      * split; [simpl; lia |]. constructor; [apply prefix_append | constructor].
      * split; [simpl; lia | constructor].
Qed.

(** So does a day, whose answers before the last add none. *)
Lemma entries_in_one (dia : string) (seg : list (call * response)) :
  Forall (fun ev => more_pages (Fetch.page (fst ev)) (snd ev) = true) (removelast seg) ->
  (List.length (entries_in dia seg) <= 1)%nat
  /\ Forall (fun e => prefix dia e = true) (entries_in dia seg).
Proof.
  induction seg as [| ev seg IH]; intros Hmore.
  - split; [simpl; lia | constructor].
  - unfold entries_in. cbn [flat_map]. fold (entries_in dia seg).
    destruct seg as [| ev' seg].
    + cbn [entries_in flat_map]. rewrite app_nil_r. apply entries_of_one.
    + change (removelast (ev :: ev' :: seg)) with (ev :: removelast (ev' :: seg))
        in Hmore.
      inversion Hmore as [| ? ? Hev Hrest]; subst.
      rewrite (more_pages_no_entry dia _ _ Hev). apply IH. exact Hrest.
Qed.

Lemma range_entries_per_day (days : list Z) :
  forall segs,
    List.length segs = List.length days ->
    Forall (fun seg =>
              Forall (fun ev => more_pages (Fetch.page (fst ev)) (snd ev) = true)
                (removelast seg)) segs ->
    exists entries,
      range_entries fecha_desde days segs = List.concat entries
      /\ Forall2 (fun i es =>
                    (List.length es <= 1)%nat
                    /\ Forall (fun e => prefix (dia_str_display fecha_desde i) e = true) es)
           days entries.
Proof.
  induction days as [| i days IH]; intros [| seg segs] Hlen Hmore;
    try discriminate.
  - exists []. split; [reflexivity | constructor].
  - inversion Hmore as [| ? ? Hseg Hrest]; subst.
    injection Hlen as Hlen.
    destruct (IH segs Hlen Hrest) as [entries [Hent Hall]].
    exists (entries_in (dia_str_display fecha_desde i) seg :: entries).
    split.
    + unfold range_entries in *. simpl. rewrite Hent. reflexivity.
    + constructor; [apply entries_in_one; exact Hseg | exact Hall].
Qed.

(** X15.  At most one error entry per day, in the order of the days.
    When the fetch ends with rows or with no matches, whatever the
    endpoint answered, its error entries are those of the days of the
    range one after the other: no day has more than one (a failed
    request, a success flag other than 1 or the ceiling, since each of
    them ends the day), and each entry starts with the date of its day. *)
Theorem error_entries_per_day (tr : trace) (errores : list string) :
  (exists df,
     fst (do_fetch upstream betsapi_token sport_id_input scope_key fecha_desde
            fecha_hasta timezone tr) = Fetched df errores)
  \/ fst (do_fetch upstream betsapi_token sport_id_input scope_key fecha_desde
            fecha_hasta timezone tr) = NoMatches errores ->
  exists entries,
    errores = List.concat entries
    /\ Forall2 (fun i es =>
                  (List.length es <= 1)%nat
                  /\ Forall (fun e => prefix (dia_str_display fecha_desde i) e = true) es)
         (range (fecha_hasta - fecha_desde + 1)) entries.
Proof.
  intros Hout.
  destruct (strip betsapi_token =? "")%string eqn:Htoken.
  { unfold do_fetch in Hout. rewrite Htoken in Hout.
    destruct Hout as [[df H] | H]; discriminate. }
  destruct (fecha_hasta <? fecha_desde) eqn:Hrange.
  { unfold do_fetch in Hout. rewrite Htoken, Hrange in Hout.
    destruct Hout as [[df H] | H]; discriminate. }
  apply String.eqb_neq in Htoken. apply Z.ltb_ge in Hrange.
  destruct (do_fetch_outcome tr Htoken Hrange)
    as [segs [_ [_ [_ [Hmore [Hok Hbad]]]]]].
  destruct (forallb all_well_shaped segs) eqn:Hws.
  - destruct (Hok eq_refl) as [Hlen Hfst]. rewrite Hfst in Hout.
    assert (Herr : errores
                   = range_entries fecha_desde (range (fecha_hasta - fecha_desde + 1))
                       segs).
    { destruct (range_frames timezone segs);
        destruct Hout as [[df H] | H]; try discriminate;
        injection H; intros; subst; reflexivity. }
    rewrite Herr. apply range_entries_per_day; [| exact Hmore].
    rewrite Hlen. unfold range. rewrite length_map, length_seq. reflexivity.
  - destruct (Hbad eq_refl) as [_ [e [Hfst _]]]. rewrite Hfst in Hout.
    destruct Hout as [[df H] | H]; discriminate.
Qed.



End OrchestratorFurther.

Lemma malformed_answer_aborts_range_witness :
  strip "token" <> ""
  /\ ymd 2024 3 1 <= ymd 2024 3 2
  /\ fst (do_fetch (rt := Example.runtime) array_body "token" 13 "upcoming"
            (ymd 2024 3 1) (ymd 2024 3 2) "UTC" [])
     = GeneralError AttributeError
  /\ exists segs,
       snd (do_fetch (rt := Example.runtime) array_body "token" 13 "upcoming"
              (ymd 2024 3 1) (ymd 2024 3 2) "UTC" []) = List.concat segs
       /\ all_well_shaped (List.concat segs) = false
       /\ all_well_shaped (List.concat (removelast segs)) = true.
Proof.
  assert (Htoken : strip "token" <> "") by discriminate.
  assert (Hrange : ymd 2024 3 1 <= ymd 2024 3 2) by discriminate.
  split; [exact Htoken |]. split; [exact Hrange |].
  split; [vm_compute; reflexivity |].
  destruct (malformed_answer_aborts_range (rt := Example.runtime) array_body
              "token" 13 "upcoming" (ymd 2024 3 1) (ymd 2024 3 2) "UTC" []
              Htoken Hrange)
    as [segs [Hsnd [_ [Hiff Hbad]]]].
  assert (Hws : all_well_shaped (List.concat segs) = false).
  { apply (proj1 Hiff). exists AttributeError. vm_compute. reflexivity. }
  exists segs. split; [exact Hsnd |]. split; [exact Hws |].
  apply (proj1 (Hbad Hws)).
Defined.

Lemma barren_range_one_request_a_day_witness :
  strip "token" <> ""
  /\ ymd 2024 3 1 <= ymd 2024 3 2
  /\ (forall tr c, barren (unreachable tr c) = true)
  /\ exists evs,
       map (fun ev => (day (fst ev), page (fst ev))) evs
       = [("20240301", 1); ("20240302", 1)]
       /\ do_fetch (rt := Example.runtime) unreachable "token" 13 "upcoming"
            (ymd 2024 3 1) (ymd 2024 3 2) "UTC" []
          = (NoMatches ["2024-03-01 (página 1): error HTTP Read timed out";
                        "2024-03-02 (página 1): error HTTP Read timed out"],
             evs).
Proof.
  assert (Htoken : strip "token" <> "") by discriminate.
  assert (Hrange : ymd 2024 3 1 <= ymd 2024 3 2) by discriminate.
  assert (Hbarren : forall tr c, barren (unreachable tr c) = true)
    by (intros tr c; reflexivity).
  split; [exact Htoken |]. split; [exact Hrange |]. split; [exact Hbarren |].
  destruct (barren_range_one_request_a_day (rt := Example.runtime) unreachable
              "token" 13 "upcoming" (ymd 2024 3 1) (ymd 2024 3 2) "UTC" []
              Htoken Hrange Hbarren)
    as [evs [Hmap [_ Hrun]]].
  exists evs. split.
  - rewrite <- (map_map fst (fun c => (day c, page c))), Hmap.
    vm_compute. reflexivity.
  - assert (Hfst : fst (do_fetch (rt := Example.runtime) unreachable "token" 13
                          "upcoming" (ymd 2024 3 1) (ymd 2024 3 2) "UTC" [])
                   = NoMatches ["2024-03-01 (página 1): error HTTP Read timed out";
                                "2024-03-02 (página 1): error HTTP Read timed out"])
      by (vm_compute; reflexivity).
    assert (Hsnd : snd (do_fetch (rt := Example.runtime) unreachable "token" 13
                          "upcoming" (ymd 2024 3 1) (ymd 2024 3 2) "UTC" [])
                   = evs) by (rewrite Hrun; reflexivity).
    rewrite (surjective_pairing (do_fetch _ _ _ _ _ _ _ _)), Hfst, Hsnd.
    reflexivity.
Defined.

Lemma error_entries_per_day_witness :
  fst two_days_fetch = Fetched [row_123; row_unkeyed "C"] two_days_errors
  /\ exists entries,
       two_days_errors = List.concat entries
       /\ Forall2 (fun i es =>
                     (List.length es <= 1)%nat
                     /\ Forall (fun e =>
                                  prefix (dia_str_display (rt := Example.runtime)
                                            (ymd 2024 3 1) i) e = true) es)
            [0; 1] entries.
Proof.
  assert (Hrun : fst two_days_fetch = Fetched [row_123; row_unkeyed "C"] two_days_errors)
    by (vm_compute; reflexivity).
  split; [exact Hrun |].
  exact (error_entries_per_day (rt := Example.runtime) Example.two_days "token" 13
           "upcoming" (ymd 2024 3 1) (ymd 2024 3 2) "UTC" [] two_days_errors
           (or_introl (ex_intro _ _ Hrun))).
Defined.


(** ** The uploaded payload *)

Section UploadFurther.
Import Upload.
Context {rt : Runtime}.
Variable timezone : string.

(** The list read off an object (lines 414-418). *)
Lemma result_list_dict (d : list (string * value)) :
  result_list (VDict d) = Ok (get d "results" orelse get d "result" orelse VList []).
Proof.
  unfold result_list, py_or. simpl.
  destruct (truthy (get d "results")); [reflexivity |].
  destruct (truthy (get d "result")); reflexivity.
Qed.


(** X17.  Only a JSON object can be uploaded.  A payload that is not an
    object is reported as invalid JSON, with the [AttributeError] of its
    missing [get], and the buffer is left as it was; so is a file that
    [json.load] cannot read.  In particular a payload that is directly
    the list of events is not loaded: the third alternative of lines
    414-418 is never taken. *)
Theorem upload_needs_an_object (parsed : result value) (df_buf : DataFrame) :
  (forall d, parsed <> Ok (VDict d)) ->
  exists e,
    upload timezone parsed df_buf = (InvalidJson e, df_buf)
    /\ (forall data, parsed = Ok data -> e = AttributeError).
Proof.
  intros H. destruct parsed as [data | e].
  - exists AttributeError. split; [| reflexivity].
    destruct data; try reflexivity. exfalso. eapply H. reflexivity.
  - exists e. split; [reflexivity | discriminate].
Qed.

(** What the upload does with an object. *)
Lemma upload_dict (d : list (string * value)) (df_buf : DataFrame) :
  upload timezone (Ok (VDict d)) df_buf
  = if negb (is_none (get d "success")) && py_ne_int (get d "success") 1 then
      (NotSuccess (get d "success"), df_buf)
    else
      match normalize_result (get d "results" orelse get d "result" orelse VList [])
              (strip timezone) with
      | Ok df_json =>
          if empty df_json then (NothingNormalized, df_buf)
          else (Loaded (List.length df_json), df_json)
      | Raise e => (InvalidJson e, df_buf)
      end.
Proof.
  unfold upload, load. cbn [bind data_get].
  destruct (negb (is_none (get d "success")) && py_ne_int (get d "success") 1);
    [reflexivity |].
  rewrite result_list_dict. cbn [bind].
  destruct (normalize_result _ _) as [df_json | e]; [| reflexivity].
  cbn [bind]. destruct (empty df_json); reflexivity.
Qed.

(** After an upload the buffer is the one from before or holds rows. *)
Lemma upload_buffer (parsed : result value) (df_buf : DataFrame) :
  snd (upload timezone parsed df_buf) = df_buf
  \/ (1 <= List.length (snd (upload timezone parsed df_buf)))%nat.
Proof.
  destruct parsed as [data | e]; [| left; reflexivity].
  destruct data as [| b | z | f | s | l | d]; try (left; reflexivity).
  rewrite upload_dict.
  destruct (negb (is_none (get d "success")) && py_ne_int (get d "success") 1);
    [left; reflexivity |].
  destruct (normalize_result _ _) as [df_json | e]; [| left; reflexivity].
  destruct df_json as [| r df_json]; [left; reflexivity |].
  right. simpl. lia.
Qed.

(** X18.  The buffer changes only for rows.  Whatever file is uploaded and
    whatever the buffer holds, either the report is not the one of a load
    and the buffer is left as it was, or the payload is loaded and the
    buffer holds its rows, at least one, as many as the report counts. *)
Theorem upload_replaces_only_with_rows (parsed : result value) (df_buf : DataFrame) :
  (snd (upload timezone parsed df_buf) = df_buf
   /\ forall n, fst (upload timezone parsed df_buf) <> Loaded n)
  \/ (fst (upload timezone parsed df_buf)
        = Loaded (List.length (snd (upload timezone parsed df_buf)))
      /\ (1 <= List.length (snd (upload timezone parsed df_buf)))%nat).
Proof.
  destruct parsed as [data | e]; [| left; split; [reflexivity | discriminate]].
  destruct data as [| b | z | f | s | l | d];
    try (left; split; [reflexivity | discriminate]).
  rewrite upload_dict.
  destruct (negb (is_none (get d "success")) && py_ne_int (get d "success") 1);
    [left; split; [reflexivity | discriminate] |].
  destruct (normalize_result _ _) as [df_json | e];
    [| left; split; [reflexivity | discriminate]].
  destruct df_json as [| r df_json]; [left; split; [reflexivity | discriminate] |].
  right. simpl. split; [reflexivity | lia].
Qed.




End UploadFurther.

Lemma upload_needs_an_object_witness :
  (forall d, Ok (VList [VDict [("id", VInt 1)]]) <> Ok (VDict d))
  /\ Upload.upload (rt := Example.runtime) "UTC" (Ok (VList [VDict [("id", VInt 1)]]))
       [row_123]
     = (Upload.InvalidJson AttributeError, [row_123]).
Proof.
  assert (H : forall d, Ok (VList [VDict [("id", VInt 1)]]) <> Ok (VDict d))
    by (intros d; discriminate).
  split; [exact H |].
  destruct (upload_needs_an_object (rt := Example.runtime) "UTC" _ [row_123] H)
    as [e [Hu He]].
  rewrite Hu, (He _ eq_refl). reflexivity.
Defined.



(** ** One run of the script *)

Section SessionFurther.
Import Upload Session.
Context {rt : Runtime}.
Variable upstream : trace -> call -> response.
Variable betsapi_token : string.
Variable sport_id_input : Z.
Variable scope_key : string.
Variable fecha_desde fecha_hasta : date.
Variable timezone : string.

(** X21.  Nothing empties the buffer.  After a run of the script, with
    the fetch button pressed or not and a file uploaded or not, whatever
    the endpoint answers and whatever the file holds, the buffer is the
    one from before or it holds at least one row: a fetch or an upload
    that fails or finds nothing leaves the rows of the earlier runs in
    the preview. *)
Theorem buffer_never_emptied (pressed : bool) (upl : option (result value))
    (df_buf : DataFrame) (tr : trace) :
  fst (run upstream betsapi_token sport_id_input scope_key fecha_desde fecha_hasta
         timezone pressed upl df_buf tr) = df_buf
  \/ (1 <= List.length
             (fst (run upstream betsapi_token sport_id_input scope_key fecha_desde
                     fecha_hasta timezone pressed upl df_buf tr)))%nat.
Proof.
  unfold run.
  assert (Hfetch : forall tr',
            buffer_after_fetch
              (fst (do_fetch upstream betsapi_token sport_id_input scope_key
                      fecha_desde fecha_hasta timezone tr')) df_buf = df_buf
            \/ (1 <= List.length
                       (buffer_after_fetch
                          (fst (do_fetch upstream betsapi_token sport_id_input
                                  scope_key fecha_desde fecha_hasta timezone tr'))
                          df_buf))%nat).
  { intros tr'.
    pose proof (fetched_rows_exist upstream betsapi_token sport_id_input scope_key
                  fecha_desde fecha_hasta timezone tr') as H.
    destruct (fst (do_fetch upstream betsapi_token sport_id_input scope_key
                     fecha_desde fecha_hasta timezone tr'))
      as [| | errores | df errores | e]; try (left; reflexivity).
    right. simpl. specialize (H df errores eq_refl).
    destruct df; [contradiction | simpl; lia]. }
  assert (Hupload : forall parsed buf,
            buf = df_buf \/ (1 <= List.length buf)%nat ->
            snd (upload timezone parsed buf) = df_buf
            \/ (1 <= List.length (snd (upload timezone parsed buf)))%nat).
  { intros parsed buf Hbuf.
    destruct (upload_buffer timezone parsed buf) as [-> | H];
      [exact Hbuf | right; exact H]. }
  destruct pressed.
  - specialize (Hfetch tr).
    destruct (do_fetch upstream betsapi_token sport_id_input scope_key fecha_desde
                fecha_hasta timezone tr) as [o tr'].
    simpl in Hfetch. destruct upl as [parsed |]; simpl.
    + apply Hupload. exact Hfetch.
    + exact Hfetch.
  - destruct upl as [parsed |]; simpl.
    + apply Hupload. left. reflexivity.
    + left. reflexivity.
Qed.

(** The report of an upload, and the rows it loads, do not depend on the
    buffer. *)
Lemma upload_whatever_the_buffer (parsed : result value) (buf buf' : DataFrame)
    (n : nat) :
  fst (upload timezone parsed buf) = Loaded n ->
  upload timezone parsed buf' = upload timezone parsed buf.
Proof.
  destruct parsed as [data | e]; [| discriminate].
  destruct data as [| b | z | f | s | l | d]; try discriminate.
  rewrite !upload_dict.
  destruct (negb (is_none (get d "success")) && py_ne_int (get d "success") 1);
    [discriminate |].
  destruct (normalize_result _ _) as [df_json | e]; [| discriminate].
  destruct (empty df_json); [discriminate | reflexivity].
Qed.

(** X22.  In a run with both, the upload wins.  When the fetch button is
    pressed while a file that loads is there, the requests of the fetch
    are all sent, and the buffer ends with the rows of the file, whatever
    the fetch found. *)
Theorem upload_overrides_fetch (parsed : result value) (df_buf : DataFrame)
    (tr : trace) (n : nat) :
  fst (upload timezone parsed df_buf) = Loaded n ->
  run upstream betsapi_token sport_id_input scope_key fecha_desde fecha_hasta
    timezone true (Some parsed) df_buf tr
  = (snd (upload timezone parsed df_buf),
     snd (do_fetch upstream betsapi_token sport_id_input scope_key fecha_desde
            fecha_hasta timezone tr)).
Proof.
  intros Hload. unfold run.
  destruct (do_fetch upstream betsapi_token sport_id_input scope_key fecha_desde
              fecha_hasta timezone tr) as [o tr'].
  simpl. rewrite (upload_whatever_the_buffer parsed df_buf _ n Hload). reflexivity.
Qed.

End SessionFurther.

Lemma upload_overrides_fetch_witness :
  fst (Upload.upload (rt := Example.runtime) "UTC" (Ok (VDict uploaded_twins)) [])
  = Upload.Loaded 2
  /\ map event_key
       (fst (Session.run (rt := Example.runtime) two_days "token" 13 "upcoming"
               (ymd 2024 3 1) (ymd 2024 3 2) "UTC" true
               (Some (Ok (VDict uploaded_twins))) [] []))
     = ["5"; "5"]
  /\ List.length
       (snd (Session.run (rt := Example.runtime) two_days "token" 13 "upcoming"
               (ymd 2024 3 1) (ymd 2024 3 2) "UTC" true
               (Some (Ok (VDict uploaded_twins))) [] []))
     = 4%nat.
Proof.
  assert (Hload : fst (Upload.upload (rt := Example.runtime) "UTC"
                         (Ok (VDict uploaded_twins)) [])
                  = Upload.Loaded 2) by reflexivity.
  split; [exact Hload |].
  rewrite (upload_overrides_fetch (rt := Example.runtime) two_days "token" 13
             "upcoming" (ymd 2024 3 1) (ymd 2024 3 2) "UTC"
             (Ok (VDict uploaded_twins)) [] [] 2 Hload).
  split; vm_compute; reflexivity.
Defined.
